(** * Profile & pricing access shim over a Supabase-style client

    A shallow embedding of the two variants of [useSupabaseService]:

    - [Coercing]    : src/services/api/supabaseService.ts
    - [PassThrough] : the second copy of the module (unnamed/part_000)

    Both are stateless translators between UI call-sites and three
    collaborators: the backend query client, the backend auth client and
    the shared error reporter.  The embedding keeps the JavaScript values
    the code handles, the completion (return or throw) of every step and
    the chronological trace of the calls made to the collaborators. *)

From stdpp Require Import gmap strings list fin_maps pretty.
From Stdlib Require Import ZArith Ascii DecimalString Permutation Sorted.

#[local] Set Warnings "-register-all".
#[local] Open Scope Z_scope.
#[local] Open Scope string_scope.

(** ** JavaScript values *)

Module JS.

(** The data that crosses the boundary is JSON-like.  Numbers are the
    integers among the JavaScript numbers, and [VNaN]. *)
Inductive value : Type :=
| VUndef
| VNull
| VBool (b : bool)
| VNum (n : Z)
| VNaN
| VStr (s : string)
| VArr (items : list value)
| VObj (fields : gmap string value).

(** An object literal [{ k1: v1, k2: v2, ... }]. *)
Definition obj (fields : list (string * value)) : value :=
  VObj (list_to_map fields).

(** [ToBoolean]: what [if (v)], [!v], [v ? a : b], [v || d] and
    [Boolean(v)] test. *)
Definition truthy (v : value) : bool :=
  match v with
  | VUndef | VNull | VNaN => false
  | VBool b => b
  | VNum n => negb (Z.eqb n 0)
  | VStr s => negb (String.eqb s "")
  | VArr _ | VObj _ => true
  end.

(** [v ?? d] and [v ??= d] replace [null] and [undefined]. *)
Definition nullish (v : value) : bool :=
  match v with
  | VUndef | VNull => true
  | _ => false
  end.

Definition coalesce (v d : value) : value := if nullish v then d else v.

(** A default parameter [{ x = d }] replaces [undefined] only. *)
Definition param_default (v d : value) : value :=
  match v with
  | VUndef => d
  | _ => v
  end.

(** [v || d] *)
Definition or_else (v d : value) : value := if truthy v then v else d.

Definition typeof (v : value) : string :=
  match v with
  | VUndef => "undefined"
  | VBool _ => "boolean"
  | VNum _ | VNaN => "number"
  | VStr _ => "string"
  | VNull | VArr _ | VObj _ => "object"
  end.

Definition isArray (v : value) : bool :=
  match v with
  | VArr _ => true
  | _ => false
  end.

(** Completion of a step: a value, or a thrown value (a rejected promise
    once awaited). *)
Inductive completion (A : Type) : Type :=
| Normal (a : A)
| Throw (e : value).
Arguments Normal {A} a.
Arguments Throw {A} e.

Definition TypeError (message : string) : value :=
  obj [("name", VStr "TypeError"); ("message", VStr message)].

(** [v.k], and each binding of a destructuring pattern [{ k } = v]:
    reading a property of [null] or [undefined] throws a [TypeError]; an
    object yields the field or [undefined].  None of the keys this module
    reads ([data], [error], [user], [id], [name], ...) is a property of
    a boolean, number, string or array, so those yield [undefined]. *)
Definition get_prop (v : value) (k : string) : completion value :=
  match v with
  | VUndef | VNull =>
      Throw (TypeError ("Cannot read properties of " +:+ typeof v))
  | VObj fields => Normal (default VUndef (fields !! k))
  | _ => Normal VUndef
  end.

(** How an optional argument of type [number] or [boolean] arrives. *)
Definition of_number (o : option Z) : value :=
  match o with
  | Some n => VNum n
  | None => VUndef
  end.

Definition of_boolean (o : option bool) : value :=
  match o with
  | Some b => VBool b
  | None => VUndef
  end.

(** *** Whitespace normalisation of a template literal *)

(** [\s] on the characters a source file holds. *)
Definition is_space (c : ascii) : bool :=
  let n := nat_of_ascii c in
  (Nat.eqb n 32 || (Nat.leb 9 n && Nat.leb n 13))%bool.

(** [s.replace(/\s+/g, ' ')] *)
Fixpoint replace_spaces (s : string) : string :=
  match s with
  | EmptyString => EmptyString
  | String c rest =>
      if is_space c then
        match rest with
        | String c' _ =>
            if is_space c' then replace_spaces rest
            else String " " (replace_spaces rest)
        | EmptyString => String " " EmptyString
        end
      else String c (replace_spaces rest)
  end.

Fixpoint trimStart (s : string) : string :=
  match s with
  | String c rest => if is_space c then trimStart rest else s
  | EmptyString => EmptyString
  end.

Fixpoint trimEnd (s : string) : string :=
  match s with
  | EmptyString => EmptyString
  | String c rest =>
      match trimEnd rest with
      | EmptyString => if is_space c then EmptyString else String c EmptyString
      | rest' => String c rest'
      end
  end.

(** [s.trim()] *)
Definition trim (s : string) : string := trimEnd (trimStart s).

End JS.
Export JS.

(** ** Collaborators and effects *)

(** What the query builder [supabase.from(t).select(c).eq(k, v)
    .order(k, { ascending }).limit(n).single()] has accumulated when it is
    awaited. *)
Record query : Type := Query {
  q_table : string;
  q_select : string;
  q_filters : list (string * value);
  q_order : option (string * bool);
  q_limit : option value;
  q_single : bool
}.

Module Q.

Definition from (table : string) : query :=
  Query table "*" [] None None false.

Definition select (q : query) (columns : string) : query :=
  Query (q_table q) columns (q_filters q) (q_order q) (q_limit q) (q_single q).

Definition eq (q : query) (column : string) (v : value) : query :=
  Query (q_table q) (q_select q) (q_filters q ++ [(column, v)])%list
        (q_order q) (q_limit q) (q_single q).

Definition order (q : query) (column : string) (ascending : bool) : query :=
  Query (q_table q) (q_select q) (q_filters q) (Some (column, ascending))
        (q_limit q) (q_single q).

Definition limit (q : query) (n : value) : query :=
  Query (q_table q) (q_select q) (q_filters q) (q_order q) (Some n) (q_single q).

Definition single (q : query) : query :=
  Query (q_table q) (q_select q) (q_filters q) (q_order q) (q_limit q) true.

End Q.

(** The imported [supabase] client: what each call completes with once
    awaited.  Every operation of the module calls each entry at most
    once. *)
Record client : Type := Client {
  auth_getUser : completion value;
  auth_signInWithOAuth : value -> completion value;
  auth_signOut : completion value;
  postgrest : query -> completion value
}.

(** The ambient platform: the built-ins [String(v)] and [Number(v)]
    ([None] is [NaN]), [window.location.origin] and
    [process.env.NEXT_SITE_URL]. *)
Record platform : Type := Platform {
  js_String : value -> string;
  js_Number : value -> option Z;
  window_location_origin : value;
  NEXT_SITE_URL : value
}.

Definition number (n : option Z) : value :=
  match n with
  | Some n => VNum n
  | None => VNaN
  end.

(** Calls that leave the module, in the order they are made. *)
Inductive event : Type :=
| EGetUser
| ESignInWithOAuth (credentials : value)
| ESignOut
| EQuery (q : query)
| EHandlerApiError (error : value)
| EConsole (level : string) (args : list value).

(** A computation extends the trace and completes. *)
Definition M (A : Type) : Type := list event -> completion A * list event.

#[export] Instance M_ret : MRet M := fun A a t => (Normal a, t).
#[export] Instance M_bind : MBind M := fun A B f m t =>
  match m t with
  | (Normal a, t') => f a t'
  | (Throw e, t') => (Throw e, t')
  end.
#[export] Instance M_throw : MThrow value M := fun A e t => (Throw e, t).

(** [try { body } catch (error) { handler }] *)
Definition try_catch {A} (body : M A) (handler : value -> M A) : M A :=
  fun t =>
    match body t with
    | (Normal a, t') => (Normal a, t')
    | (Throw e, t') => handler e t'
    end.

Definition emit (ev : event) : M unit := fun t => (Normal tt, (t ++ [ev])%list).

(** A pure step that may throw. *)
Definition lift {A} (c : completion A) : M A := fun t => (c, t).

(** [await call] after the call has been made. *)
Definition await (ev : event) (c : completion value) : M value :=
  emit ev;; lift c.

Definition prop (v : value) (k : string) : M value := lift (get_prop v k).

(** [arr.map(f)]: the callback runs on each item in order, and the first
    throw ends the loop. *)
Fixpoint map_items (f : value -> M value) (items : list value) : M (list value) :=
  match items with
  | [] => mret []
  | x :: rest => y ← f x; ys ← map_items f rest; mret (y :: ys)
  end.

Definition array_map (f : value -> M value) (arr : value) : M value :=
  match arr with
  | VArr items => ys ← map_items f items; mret (VArr ys)
  | VUndef | VNull =>
      mthrow (TypeError ("Cannot read properties of " +:+ typeof arr))
  | _ => mthrow (TypeError "map is not a function")
  end.

Definition console (level : string) (args : list value) : M unit :=
  emit (EConsole level args).

(** Modelled from the spec: [handlerApiError] is imported from
    [@/utils/errors/handlerApi], which is not among the sources.  The spec
    describes it as a single shared function accepting an unknown error
    value and performing side-effectful reporting, which must not raise. *)
Definition handlerApiError (error : value) : M unit :=
  emit (EHandlerApiError error).

(** Running an operation from an empty trace. *)
Definition run {A} (m : M A) : completion A * list event := m [].

Definition result {A} (m : M A) : completion A := fst (run m).
Definition trace {A} (m : M A) : list event := snd (run m).

Definition is_report (ev : event) : bool :=
  match ev with
  | EHandlerApiError _ => true
  | _ => false
  end.

(** How many times the shared error reporter was invoked. *)
Definition reports (t : list event) : nat := length (List.filter is_report t).

(** The queries issued to the backend query client. *)
Definition queries (t : list event) : list query :=
  omap (fun ev => match ev with EQuery q => Some q | _ => None end) t.

(** The argument object of [fetchPricingPlans]. *)
Record Options : Type := {
  opt_limit : option Z;
  opt_is_featured : option bool
}.

(** The argument [{ provider, options: { redirectTo } }] of
    [signInWithOAuth]. *)
Definition credentials (provider : string) (redirectTo : value) : value :=
  obj [("provider", VStr provider);
       ("options", obj [("redirectTo", redirectTo)])].

(** The three calls on [supabase.auth] and the awaited query builder. *)
Section Calls.

Variable supabase : client.

Definition getUser : M value := await EGetUser (auth_getUser supabase).

Definition signInWithOAuth (provider : string) (redirectTo : value) : M value :=
  await (ESignInWithOAuth (credentials provider redirectTo))
        (auth_signInWithOAuth supabase (credentials provider redirectTo)).

Definition signOut : M value := await ESignOut (auth_signOut supabase).

Definition send (q : query) : M value := await (EQuery q) (postgrest supabase q).

End Calls.

(** ** The coercing variant: src/services/api/supabaseService.ts *)

Module Coercing.
Section Service.

Variable pf : platform.
Variable supabase : client.

Definition selectQuery : string :=
  trim (replace_spaces "
        id, name, slug, 
        description, cta, 
        most_popular, is_featured, 
        pricing_features(id, name)
      ").

(** The [map] callback of [fetchPricingPlans].  Reading a property of
    plain data is repeatable, so each one is read once here, in the order
    of the object literal. *)
Definition toPricingPlan (plan : value) : M value :=
  id ← prop plan "id";
  name ← prop plan "name";
  slug ← prop plan "slug";
  description ← prop plan "description";
  cta ← prop plan "cta";
  most_popular ← prop plan "most_popular";
  is_featured ← prop plan "is_featured";
  pricing_features ← prop plan "pricing_features";
  price_monthly ← prop plan "price_monthly";
  price_yearly ← prop plan "price_yearly";
  mret (obj [
    ("id", VStr (if truthy id then js_String pf id else "Unknown"));
    ("name", VStr (if truthy name then js_String pf name else "Unknown"));
    ("slug", VStr (if truthy slug then js_String pf slug else "Unknown"));
    ("description", or_else description (VStr "No description available"));
    ("cta", or_else cta (VStr "No CTA available"));
    ("most_popular",
      VBool (match most_popular with VUndef => false | v => truthy v end));
    ("is_featured",
      VBool (match is_featured with VUndef => false | v => truthy v end));
    ("pricing_features", or_else pricing_features (VArr []));
    ("price_monthly",
      if truthy price_monthly then number (js_Number pf price_monthly) else VNum 0);
    ("price_yearly",
      if truthy price_yearly then number (js_Number pf price_yearly) else VNum 0)
  ]).

(** The query [fetchPricingPlans] awaits. *)
Definition pricingPlansQuery (limit is_featured : value) : query :=
  let query := Q.select (Q.from "pricing_plans") selectQuery in
  let query :=
    if String.eqb (typeof is_featured) "boolean"
    then Q.eq query "is_featured" is_featured
    else query in
  Q.limit (Q.order query "name" true) limit.

Definition fetchPricingPlans (options : Options) : M value :=
  let limit := param_default (of_number (opt_limit options)) (VNum 1000) in
  let is_featured :=
    param_default (of_boolean (opt_is_featured options)) (VBool false) in
  try_catch
    (response ← send supabase (pricingPlansQuery limit is_featured);
     data ← prop response "data";
     error ← prop response "error";
     if truthy error then
       console "error" [VStr "Supabase error:"; error];;
       mret (VArr [])
     else if (negb (truthy data) || negb (isArray data))%bool then
       console "error" [VStr "Data is not in the expected format:"; data];;
       mret (VArr [])
     else
       array_map toPricingPlan data)
    (fun error =>
       handlerApiError error;;
       mret (VArr [])).

Definition profileSelect : string := "
          id, name, first_name, last_name,
          email, picture, is_subscribed,
          plan_id, stripe_customer_id,
          pricing_plans(id, name, slug, description, price_monthly, price_yearly)
        ".

Definition profileQuery (user_id : value) : query :=
  Q.single (Q.eq (Q.select (Q.from "profiles") profileSelect) "id" user_id).

(** The [map] callback of [fetchUserProfile]. *)
Definition toProfilePlan (plan : value) : M value :=
  id ← prop plan "id";
  name ← prop plan "name";
  slug ← prop plan "slug";
  description ← prop plan "description";
  price_monthly ← prop plan "price_monthly";
  price_yearly ← prop plan "price_yearly";
  mret (obj [
    ("id", VStr (js_String pf id));
    ("name", VStr (js_String pf name));
    ("slug", VStr (js_String pf slug));
    ("description", or_else description (VStr "No description available"));
    ("price_monthly", or_else price_monthly (VNum 0));
    ("price_yearly", or_else price_yearly (VNum 0))
  ]).

(** [v ? String(v) : undefined] *)
Definition optional_string (v : value) : value :=
  if truthy v then VStr (js_String pf v) else VUndef.

Definition fetchUserProfile : M value :=
  try_catch
    (response ← getUser supabase;
     data ← prop response "data";
     user ← prop data "user";
     userError ← prop response "error";
     if (truthy userError || negb (truthy user))%bool then
       console "warn" [VStr "No authenticated user found"];;
       mret VNull
     else
       user_id ← prop user "id";
       response ← send supabase (profileQuery user_id);
       data ← prop response "data";
       error ← prop response "error";
       if (truthy error || negb (truthy data))%bool then
         console "error" [VStr "Profile fetch error:"; error];;
         mret VNull
       else
         console "log" [VStr "Fetched User Profile:"; data];;
         pricing_plans ← prop data "pricing_plans";
         let pricingPlans :=
           if isArray pricing_plans then pricing_plans
           else VArr [pricing_plans] in
         id ← prop data "id";
         name ← prop data "name";
         first_name ← prop data "first_name";
         last_name ← prop data "last_name";
         email ← prop data "email";
         picture ← prop data "picture";
         is_subscribed ← prop data "is_subscribed";
         plan_id ← prop data "plan_id";
         stripe_customer_id ← prop data "stripe_customer_id";
         plans ← array_map toProfilePlan pricingPlans;
         mret (obj [
           ("id", VStr (js_String pf id));
           ("name", VStr (js_String pf name));
           ("first_name", optional_string first_name);
           ("last_name", optional_string last_name);
           ("email", VStr (js_String pf email));
           ("picture", optional_string picture);
           ("is_subscribed", VBool (truthy is_subscribed));
           ("plan_id", optional_string plan_id);
           ("stripe_customer_id", VStr (js_String pf stripe_customer_id));
           ("pricing_plans", plans)
         ]))
    (fun error =>
       handlerApiError error;;
       mret VNull).

Definition loginWithGithub : M value :=
  try_catch
    (response ← signInWithOAuth supabase "github" (window_location_origin pf);
     error ← prop response "error";
     mret (obj [("error", error)]))
    (fun error =>
       handlerApiError error;;
       mret (obj [("error", error)])).

Definition loginWithLinkedIn : M value :=
  try_catch
    (response ← signInWithOAuth supabase "linkedin" (window_location_origin pf);
     error ← prop response "error";
     mret (obj [("error", error)]))
    (fun error =>
       handlerApiError error;;
       mret (obj [("error", error)])).

Definition logout : M value :=
  try_catch
    (response ← signOut supabase;
     error ← prop response "error";
     mret (obj [("error", error)]))
    (fun error =>
       handlerApiError error;;
       mret (obj [("error", error)])).

End Service.
End Coercing.

(** ** The pass-through variant: unnamed/part_000 *)

Module PassThrough.
Section Service.

Variable pf : platform.
Variable supabase : client.

Definition selectQuery : string :=
  "id, name, slug, price_monthly, price_yearly, description, cta, most_popular, is_featured, pricing_features(id,name)".

Definition pricingPlansQuery (limit is_featured : value) : query :=
  let query := Q.select (Q.from "pricing_plans") selectQuery in
  let query :=
    if String.eqb (typeof is_featured) "boolean"
    then Q.eq query "is_featured" is_featured
    else query in
  Q.limit (Q.order query "price_monthly" true) limit.

Definition fetchPricingPlans (options : Options) : M value :=
  try_catch
    (let limit := coalesce (of_number (opt_limit options)) (VNum 1000) in
     let is_featured :=
       coalesce (of_boolean (opt_is_featured options)) (VBool false) in
     response ← send supabase (pricingPlansQuery limit is_featured);
     data ← prop response "data";
     error ← prop response "error";
     if truthy error then mthrow error
     else mret (coalesce data (VArr [])))
    (fun error =>
       handlerApiError error;;
       mret (VArr [])).

Definition profileSelect : string :=
  "id, name, first_name, last_name, email, picture, is_subscribed, plan_id, stripe_customer_id, pricing_plans(id, name, slug, price_monthly, price_yearly)".

Definition profileQuery (user_id : value) : query :=
  Q.single (Q.eq (Q.select (Q.from "profiles") profileSelect) "id" user_id).

Definition toProfilePlan (plan : value) : M value :=
  id ← prop plan "id";
  name ← prop plan "name";
  slug ← prop plan "slug";
  price_monthly ← prop plan "price_monthly";
  price_yearly ← prop plan "price_yearly";
  mret (obj [
    ("id", id);
    ("name", name);
    ("slug", slug);
    ("price_monthly", price_monthly);
    ("price_yearly", price_yearly)
  ]).

Definition fetchUserProfile : M value :=
  response ← getUser supabase;
  data ← prop response "data";
  user ← prop data "user";
  userError ← prop response "error";
  if truthy userError then mret VNull
  else if negb (truthy user) then mret VNull
  else
    user_id ← prop user "id";
    response ← send supabase (profileQuery user_id);
    data ← prop response "data";
    error ← prop response "error";
    if truthy error then
      console "error" [error];;
      mret VNull
    else if negb (truthy data) then mret VNull
    else
      id ← prop data "id";
      name ← prop data "name";
      first_name ← prop data "first_name";
      last_name ← prop data "last_name";
      email ← prop data "email";
      picture ← prop data "picture";
      is_subscribed ← prop data "is_subscribed";
      plan_id ← prop data "plan_id";
      stripe_customer_id ← prop data "stripe_customer_id";
      pricing_plans ← prop data "pricing_plans";
      plans ← (if isArray pricing_plans
               then array_map toProfilePlan pricing_plans
               else mret (VArr []));
      mret (obj [
        ("id", id);
        ("name", name);
        ("first_name", first_name);
        ("last_name", last_name);
        ("email", email);
        ("picture", picture);
        ("is_subscribed", is_subscribed);
        ("plan_id", plan_id);
        ("stripe_customer_id", stripe_customer_id);
        ("pricing_plans", plans)
      ]).

Definition loginWithLinkedIn : M value :=
  try_catch
    (signInWithOAuth supabase "linkedin_oidc"
       (VStr (js_String pf (NEXT_SITE_URL pf) +:+ "auth/callback"));;
     mret VUndef)
    (fun error =>
       handlerApiError error;;
       mret VUndef).

Definition loginWithGithub : M value :=
  try_catch
    (signInWithOAuth supabase "github" (VStr "auth/callback");;
     mret VUndef)
    (fun error =>
       handlerApiError error;;
       mret VUndef).

Definition logout : M value :=
  try_catch
    (response ← signOut supabase;
     error ← prop response "error";
     mret (obj [("error", error)]))
    (fun error =>
       handlerApiError error;;
       mret VUndef).

End Service.
End PassThrough.

(** ** A reference backend *)

Module Backend.

(** The query client behind [supabase.from] is an external library.
    This module answers a query the way the module's callers expect of
    it, over tables of rows: see [exec]. *)

Abbreviation row := (gmap string value).

Definition database : Type := string -> list row.

(** A column of a row; SQL [NULL] where the row has none. *)
Definition column (r : row) (k : string) : value := default VNull (r !! k).

(** Equality of a column with the scalar of an [eq] filter. *)
Definition value_eqb (a b : value) : bool :=
  match a, b with
  | VBool x, VBool y => Bool.eqb x y
  | VNum x, VNum y => Z.eqb x y
  | VStr x, VStr y => String.eqb x y
  | _, _ => false
  end.

(** Ascending order of a sort key. *)
Definition value_leb (a b : value) : bool :=
  match a, b with
  | VNum x, VNum y => Z.leb x y
  | VStr x, VStr y => String.leb x y
  | VBool x, VBool y => implb x y
  | _, _ => true
  end.

Section Sort.

Context {A : Type} (leb : A -> A -> bool).

Fixpoint insert_sorted (x : A) (l : list A) : list A :=
  match l with
  | [] => [x]
  | y :: rest => if leb x y then x :: y :: rest else y :: insert_sorted x rest
  end.

Fixpoint sort (l : list A) : list A :=
  match l with
  | [] => []
  | x :: rest => insert_sorted x (sort rest)
  end.

End Sort.

(** The column names of a select list: the items between the commas
    outside parentheses; a nested relation [rel(a, b)] is the column
    [rel]. *)
Fixpoint split_columns (depth : nat) (current s : string) : list string :=
  match s with
  | EmptyString => [current]
  | String c rest =>
      if Ascii.eqb c "(" then
        split_columns (S depth) (current +:+ String c "") rest
      else if Ascii.eqb c ")" then
        split_columns (Nat.pred depth) (current +:+ String c "") rest
      else if (Ascii.eqb c "," && Nat.eqb depth 0)%bool then
        current :: split_columns 0 "" rest
      else split_columns depth (current +:+ String c "") rest
  end.

Fixpoint before_paren (s : string) : string :=
  match s with
  | EmptyString => EmptyString
  | String c rest => if Ascii.eqb c "(" then EmptyString else String c (before_paren rest)
  end.

Definition columns (select_list : string) : list string :=
  map (fun item => trim (before_paren item)) (split_columns 0 "" select_list).

Definition project (cols : list string) (r : row) : row :=
  list_to_map (map (fun k => (k, column r k)) cols).

Definition matches (filters : list (string * value)) (r : row) : bool :=
  forallb (fun '(k, v) => value_eqb (column r k) v) filters.

Definition by_column (k : string) (r1 r2 : row) : bool :=
  value_leb (column r1 k) (column r2 k).

Definition ordered (o : option (string * bool)) (rows : list row) : list row :=
  match o with
  | Some (k, true) => sort (by_column k) rows
  | Some (k, false) => rev (sort (by_column k) rows)
  | None => rows
  end.

Definition limited (n : option value) (rows : list row) : list row :=
  match n with
  | Some (VNum n) => take (Z.to_nat n) rows
  | _ => rows
  end.

(** The rows a query selects, before projection. *)
Definition selected (db : database) (q : query) : list row :=
  limited (q_limit q)
    (ordered (q_order q) (List.filter (matches (q_filters q)) (db (q_table q)))).

Definition response (data error : value) : value :=
  obj [("data", data); ("error", error)].

(** The rows answered: the selected rows, projected. *)
Definition answer (db : database) (q : query) : list value :=
  map (fun r => VObj (project (columns (q_select q)) r)) (selected db q).

(** Modelled from the spec: the backend query client is not among the
    sources.  The spec asks of it table selection, column projection
    (including nested relation projection), equality filtering, ordering
    by a named column ascending, row-count limiting, and a multi-row and a
    single-row ("expect exactly one, error if zero or many") query mode. *)
Definition exec (db : database) (q : query) : value :=
  if q_single q then
    match answer db q with
    | [r] => response r VNull
    | _ =>
        response VNull
          (obj [("code", VStr "PGRST116");
                ("message", VStr "JSON object requested, multiple (or no) rows returned")])
    end
  else response (VArr (answer db q)) VNull.

(** A client whose query client is this backend over [db]. *)
Definition serve (db : database) (supabase : client) : client :=
  Client (auth_getUser supabase) (auth_signInWithOAuth supabase)
         (auth_signOut supabase) (fun q => Normal (exec db q)).

(** Rows of [pricing_plans]: the featured ones, and the monthly price. *)
Definition featured (r : row) : bool :=
  value_eqb (column r "is_featured") (VBool true).

Definition price (r : row) : Z :=
  match column r "price_monthly" with
  | VNum n => n
  | _ => 0
  end.

Definition priced (r : row) : Prop :=
  exists n, column r "price_monthly" = VNum n.

End Backend.

(** ** A platform to run examples on *)

Module Sample.

(** [String(v)] on JSON data. *)
Fixpoint String_ (v : value) : string :=
  match v with
  | VUndef => "undefined"
  | VNull => "null"
  | VBool true => "true"
  | VBool false => "false"
  | VNum n => pretty n
  | VNaN => "NaN"
  | VStr s => s
  | VArr items =>
      String.concat ","
        (map (fun x => if nullish x then "" else String_ x) items)
  | VObj _ => "[object Object]"
  end.

(** [Number(v)] on scalars; a string is read as a decimal integer. *)
Definition Number_ (v : value) : option Z :=
  match v with
  | VUndef | VNaN | VArr _ | VObj _ => None
  | VNull | VBool false => Some 0
  | VBool true => Some 1
  | VNum n => Some n
  | VStr s =>
      match trim s with
      | EmptyString => Some 0
      | digits => Z.of_int <$> NilZero.int_of_string digits
      end
  end.

Definition browser : platform :=
  Platform String_ Number_ (VStr "https://app.example") (VStr "https://app.example/").

Definition response (data error : value) : value :=
  obj [("data", data); ("error", error)].

Definition user : value :=
  obj [("id", VStr "u1"); ("email", VStr "ann@example.org")].

Definition signed_in : value := response (obj [("user", user)]) VNull.

Definition auth_error : value :=
  obj [("name", VStr "AuthError"); ("message", VStr "invalid JWT")].

Definition query_error : value :=
  obj [("code", VStr "42501"); ("message", VStr "permission denied")].

(** A client whose every call succeeds with [data] for any query. *)
Definition answering (data error : value) : client :=
  Client (Normal signed_in)
         (fun _ => Normal (response (obj [("provider", VStr "github")]) VNull))
         (Normal (obj [("error", VNull)]))
         (fun _ => Normal (response data error)).

(** The same client with no session: [getUser] resolves with an error. *)
Definition signed_out : client :=
  Client (Normal (response (obj [("user", VNull)]) auth_error))
         (fun _ => Normal (response (obj [("provider", VStr "github")]) VNull))
         (Normal (obj [("error", VNull)]))
         (fun _ => Normal (response VNull VNull)).

(** No network: every call rejects. *)
Definition network_error : value :=
  obj [("name", VStr "TypeError"); ("message", VStr "Failed to fetch")].

Definition offline : client :=
  Client (Throw network_error) (fun _ => Throw network_error)
         (Throw network_error) (fun _ => Throw network_error).

(** The provider is not enabled: [signInWithOAuth] and [signOut] resolve
    with an error. *)
Definition failing_auth : client :=
  Client (Normal signed_in)
         (fun _ => Normal (response (obj [("provider", VNull)]) auth_error))
         (Normal (obj [("error", auth_error)]))
         (fun _ => Normal (response VNull VNull)).

Definition starter_plan : value :=
  obj [("id", VStr "p1"); ("name", VStr "Starter"); ("slug", VStr "starter");
       ("price_monthly", VNum 9); ("price_yearly", VNum 90)].

Definition profile_with_plan : value :=
  obj [("id", VStr "u1"); ("name", VStr "Ann"); ("email", VStr "ann@example.org");
       ("is_subscribed", VBool true); ("plan_id", VStr "p1");
       ("stripe_customer_id", VStr "cus_1"); ("pricing_plans", starter_plan)].

(** Nobody is signed in: [getUser] resolves with no user and no error. *)
Definition anonymous : client :=
  Client (Normal (response (obj [("user", VNull)]) VNull))
         (fun _ => Normal (response (obj [("provider", VStr "github")]) VNull))
         (Normal (obj [("error", VNull)]))
         (fun _ => Normal (response VNull VNull)).

(** A session, and a query client that rejects. *)
Definition database_down : client :=
  Client (Normal signed_in)
         (fun _ => Normal (response (obj [("provider", VStr "github")]) VNull))
         (Normal (obj [("error", VNull)]))
         (fun _ => Throw network_error).

Definition profile_with_gap : value :=
  obj [("id", VStr "u1"); ("name", VStr "Ann"); ("email", VStr "ann@example.org");
       ("is_subscribed", VBool true); ("plan_id", VStr "p1");
       ("stripe_customer_id", VStr "cus_1");
       ("pricing_plans", VArr [starter_plan; VNull])].

Definition profile_with_plans : value :=
  obj [("id", VStr "u1"); ("name", VStr "Ann"); ("email", VStr "ann@example.org");
       ("is_subscribed", VBool true); ("plan_id", VStr "p1");
       ("stripe_customer_id", VStr "cus_1");
       ("pricing_plans", VArr [starter_plan])].

(** The same platform with [NEXT_SITE_URL] not set. *)
Definition unconfigured : platform :=
  Platform String_ Number_ (VStr "https://app.example") VUndef.

(** A row with falsy fields and a description that is not a text. *)
Definition zero_plan : value :=
  obj [("id", VNum 0); ("name", VStr ""); ("slug", VStr "zero");
       ("description", VNum 7); ("most_popular", VNull);
       ("price_monthly", VNaN); ("price_yearly", VNum 0)].

Definition profile_without_plan : value :=
  obj [("id", VStr "u1"); ("name", VStr "Ann"); ("email", VStr "ann@example.org");
       ("is_subscribed", VBool false); ("plan_id", VNull);
       ("stripe_customer_id", VStr "cus_1"); ("pricing_plans", VNull)].

(** A [pricing_plans] table with five featured plans and a free one. *)
Definition plan_row (id name : string) (monthly : Z) (is_featured : bool)
  : gmap string value :=
  list_to_map
    [("id", VStr id); ("name", VStr name); ("slug", VStr id);
     ("description", VNull); ("cta", VStr "Subscribe");
     ("most_popular", VBool false); ("is_featured", VBool is_featured);
     ("price_monthly", VNum monthly); ("price_yearly", VNum (10 * monthly));
     ("pricing_features", VArr [])].

Definition plans_table : list (gmap string value) :=
  [plan_row "team" "Team" 49 true;
   plan_row "basic" "Basic" 5 true;
   plan_row "free" "Free" 0 false;
   plan_row "agency" "Agency" 99 true;
   plan_row "solo" "Solo" 9 true;
   plan_row "company" "Company" 199 true].

Definition shop : Backend.database :=
  fun table => if String.eqb table "pricing_plans" then plans_table else [].

Definition two_featured : Options :=
  {| opt_limit := Some 2; opt_is_featured := Some true |}.

Definition no_options : Options :=
  {| opt_limit := None; opt_is_featured := None |}.

End Sample.

(** ** Scenarios *)

(** The field [k] of an object literal, read off its list of fields. *)
Fixpoint field (k : string) (fields : list (string * value)) : value :=
  match fields with
  | [] => VUndef
  | (k', v) :: rest => if String.eqb k' k then v else field k rest
  end.

(** An awaited call resolved to an object [{ data, error }]. *)
Definition responds (c : completion value) (data error : value) : Prop :=
  exists response,
    c = Normal response /\
    get_prop response "data" = Normal data /\
    get_prop response "error" = Normal error.

(** [auth.getUser()] resolves with a user and no error. *)
Definition authenticated (supabase : client) (user : value) : Prop :=
  exists data userError,
    responds (auth_getUser supabase) data userError /\
    get_prop data "user" = Normal user /\
    truthy userError = false /\
    truthy user = true.

(** The query on [table] resolves with [data] and [error]. *)
Definition answers (supabase : client) (table : string) (data error : value) : Prop :=
  forall q, q_table q = table -> responds (postgrest supabase q) data error.

(** The profile query resolves with the row [data] and no error. *)
Definition profile_row (supabase : client) (data : value) : Prop :=
  exists error,
    answers supabase "profiles" data error /\
    truthy error = false /\
    truthy data = true.

(** The operation returns to its caller instead of throwing. *)
Definition returns (m : M value) : Prop := exists v, result m = Normal v.

(** What an auth call hands to the outcome: the [error] of the object it
    resolved with, or what it threw. *)
Definition outcome_error (c : completion value) : value :=
  match c with
  | Normal response =>
      match get_prop response "error" with
      | Normal error => error
      | Throw e => e
      end
  | Throw e => e
  end.

(** The fields of a pricing plan and the value each takes when the
    backend row has none. *)
Definition defaults : list (string * value) :=
  [("id", VStr "Unknown");
   ("name", VStr "Unknown");
   ("slug", VStr "Unknown");
   ("description", VStr "No description available");
   ("cta", VStr "No CTA available");
   ("most_popular", VBool false);
   ("is_featured", VBool false);
   ("pricing_features", VArr []);
   ("price_monthly", VNum 0);
   ("price_yearly", VNum 0)].

(** [plan] holds every field, none absent, and the default where [row]
    holds [null] or nothing. *)
Definition populated_from (row plan : value) : Prop :=
  forall k d, In (k, d) defaults ->
    exists v, get_prop plan k = Normal v /\ nullish v = false /\
      (forall w, get_prop row k = Normal w -> nullish w = true -> v = d).

Definition populated (plan : value) : Prop :=
  forall k d, In (k, d) defaults ->
    exists v, get_prop plan k = Normal v /\ nullish v = false.

(** The [id]s of the plans an operation returned. *)
Definition ids (c : completion value) : list (completion value) :=
  match c with
  | Normal (VArr plans) => map (fun plan => get_prop plan "id") plans
  | _ => []
  end.

(** "A sequence of length at most [limit], each element fully
    populated" as the pricing-plan lister promises it. *)
Definition bounded_populated (m : M value) (limit : Z) : Prop :=
  exists plans,
    result m = Normal (VArr plans) /\
    Z.of_nat (length plans) <= limit /\
    Forall populated plans.

(** "Exactly the two featured plans with the lowest monthly price":
    the answer lists, by [id], two featured rows of the table that no
    other featured row undercuts. *)
Definition two_cheapest (db : Backend.database) (m : M value) : Prop :=
  exists r1 r2 rest,
    Permutation (List.filter Backend.featured (db "pricing_plans")) (r1 :: r2 :: rest) /\
    ids (result m) =
      [Normal (Backend.column r1 "id"); Normal (Backend.column r2 "id")] /\
    Backend.price r1 <= Backend.price r2 /\
    Forall (fun r => Backend.price r2 <= Backend.price r) rest.

(** ** Which collaborator a call reaches *)

(** A call on [supabase.auth]. *)
Definition touches_auth (ev : event) : bool :=
  match ev with
  | EGetUser | ESignInWithOAuth _ | ESignOut => true
  | _ => false
  end.

(** A call that changes the session: a sign-in or a sign-out. *)
Definition changes_session (ev : event) : bool :=
  match ev with
  | ESignInWithOAuth _ | ESignOut => true
  | _ => false
  end.

(** A call that reads the session or the database. *)
Definition reads_backend (ev : event) : bool :=
  match ev with
  | EGetUser | EQuery _ => true
  | _ => false
  end.

(** Every call a computation adds to the trace satisfies [P]. *)
Definition only (P : event -> Prop) {A} (m : M A) : Prop :=
  forall t, exists c t', m t = (c, (t ++ t')%list) /\ Forall P t'.

(** An awaited call failed to hand an object on: it threw, or resolved
    with [null] or [undefined], which the destructuring rejects. *)
Definition failed (c : completion value) : bool :=
  match c with
  | Throw _ => true
  | Normal response => nullish response
  end.

(** The types the coercing lister gives the fields it coerces. *)
Definition typed_plan (plan : value) : Prop :=
  (exists s, get_prop plan "id" = Normal (VStr s)) /\
  (exists s, get_prop plan "name" = Normal (VStr s)) /\
  (exists s, get_prop plan "slug" = Normal (VStr s)) /\
  (exists b, get_prop plan "most_popular" = Normal (VBool b)) /\
  (exists b, get_prop plan "is_featured" = Normal (VBool b)) /\
  (exists v, get_prop plan "price_monthly" = Normal v /\ typeof v = "number") /\
  (exists v, get_prop plan "price_yearly" = Normal v /\ typeof v = "number").

(** [Array.isArray(v) ? v : [v]]: the items of a joined relation as the
    coercing variant normalises it. *)
Definition relation_items (v : value) : list value :=
  match v with
  | VArr items => items
  | _ => [v]
  end.

(** The types of the fields of a profile shaped by the coercing variant:
    strings, a boolean, and optional fields that are a string or
    [undefined], never [null]. *)
Definition typed_profile (profile : value) : Prop :=
  (forall k, In k ["id"; "name"; "email"; "stripe_customer_id"] ->
     exists s, get_prop profile k = Normal (VStr s)) /\
  (forall k, In k ["first_name"; "last_name"; "picture"; "plan_id"] ->
     get_prop profile k = Normal VUndef \/
     exists s, get_prop profile k = Normal (VStr s)) /\
  (exists b, get_prop profile "is_subscribed" = Normal (VBool b)).

(** A plan of a pass-through profile: the five fields of its row, as they
    are, and no other field. *)
Definition trimmed (row plan : value) : Prop :=
  forall k,
    get_prop plan k =
    if bool_decide (In k ["id"; "name"; "slug"; "price_monthly"; "price_yearly"])
    then get_prop row k
    else Normal VUndef.

(** [Array.isArray(v) ? v.map(f) : []]: the items of a joined relation
    the pass-through variant maps. *)
Definition array_items (v : value) : list value :=
  match v with
  | VArr items => items
  | _ => []
  end.

(** How the coercing lister treats a field of a row: a falsy value ([0],
    the empty string, [false], [NaN], [null], nothing) gives way to the
    default, and a truthy [description], [cta] or [pricing_features] is
    handed on as it is. *)
Definition defaulted (row plan : value) : Prop :=
  forall k d w, In (k, d) defaults ->
    get_prop row k = Normal w ->
    (truthy w = false -> get_prop plan k = Normal d) /\
    (truthy w = true -> In k ["description"; "cta"; "pricing_features"] ->
     get_prop plan k = Normal w).

(** The name of a row of [pricing_plans], and the rows that have one. *)
Definition plan_name (r : gmap string value) : string :=
  match Backend.column r "name" with
  | VStr s => s
  | _ => ""
  end.

Definition named (r : gmap string value) : Prop :=
  exists s, Backend.column r "name" = VStr s.

(** "The first two featured plans by name": the answer holds two plans,
    shaped by the coercing [map] callback from the selected columns of two
    featured rows of the table that no other featured row precedes in
    ascending name order. *)
Definition first_two_by_name (pf : platform) (db : Backend.database)
    (m : M value) : Prop :=
  exists r1 r2 rest p1 p2,
    Permutation (List.filter Backend.featured (db "pricing_plans"))
                (r1 :: r2 :: rest) /\
    result m = Normal (VArr [p1; p2]) /\
    result (Coercing.toPricingPlan pf
              (VObj (Backend.project (Backend.columns Coercing.selectQuery) r1)))
      = Normal p1 /\
    result (Coercing.toPricingPlan pf
              (VObj (Backend.project (Backend.columns Coercing.selectQuery) r2)))
      = Normal p2 /\
    String.leb (plan_name r1) (plan_name r2) = true /\
    Forall (fun r => String.leb (plan_name r2) (plan_name r) = true) rest.

(** * Properties *)

(** ** Running the monad *)

Ltac js_unfold :=
  unfold result, trace, run, try_catch, send, getUser, signInWithOAuth, signOut,
    await, console, handlerApiError, prop, emit, lift,
    mbind, M_bind, mret, M_ret, mthrow, M_throw in *.

Ltac js_run := js_unfold; cbn.

(** Rewrite with what is known of the reads and tests met on the way. *)
Ltac js_known :=
  repeat (match goal with
          | H : get_prop ?v ?k = _ |- context [get_prop ?v ?k] => rewrite H
          | H : truthy ?v = _ |- context [truthy ?v] => rewrite H
          | H : isArray ?v = _ |- context [isArray ?v] => rewrite H
          | H : postgrest ?s ?q = _ |- context [postgrest ?s ?q] => rewrite H
          | H : auth_getUser ?s = _ |- context [auth_getUser ?s] => rewrite H
          end; cbn).

Lemma truthy_not_nullish v : truthy v = true -> nullish v = false.
Proof. destruct v; cbn; congruence. Qed.

Lemma get_prop_defined v k : nullish v = false -> exists w, get_prop v k = Normal w.
Proof. destruct v; cbn; intros; try discriminate; eauto. Qed.

Lemma get_prop_nullish v k :
  nullish v = true ->
  get_prop v k = Throw (TypeError ("Cannot read properties of " +:+ typeof v)).
Proof. destruct v; cbn; intros; try discriminate; reflexivity. Qed.

(** Name the reads of the fields of a value that is not nullish. *)
Ltac js_fields v Hv ks :=
  lazymatch ks with
  | nil => idtac
  | cons ?k ?rest =>
      let w := fresh "w" in
      let Hw := fresh "Hw" in
      destruct (get_prop_defined v k Hv) as [w Hw];
      js_fields v Hv rest
  end.

Lemma get_prop_obj fields k : get_prop (obj fields) k = Normal (field k fields).
Proof.
  unfold obj. cbn. f_equal.
  induction fields as [|[k' v] rest IH]; cbn.
  - now rewrite lookup_empty.
  - rewrite lookup_insert. destruct (String.eqb_spec k' k) as [->|Hne].
    + now rewrite decide_True.
    + now rewrite decide_False.
Qed.

Lemma not_array_falsy data : truthy data = false -> isArray data = false.
Proof. destruct data; cbn; congruence. Qed.

Lemma q_table_pricing_coercing limit is_featured :
  q_table (Coercing.pricingPlansQuery limit is_featured) = "pricing_plans".
Proof. unfold Coercing.pricingPlansQuery. destruct (String.eqb _ _); reflexivity. Qed.

Lemma q_table_pricing_passthrough limit is_featured :
  q_table (PassThrough.pricingPlansQuery limit is_featured) = "pricing_plans".
Proof. unfold PassThrough.pricingPlansQuery. destruct (String.eqb _ _); reflexivity. Qed.

(** ** Pricing plans: malformed payloads and errors *)

(** C10. In the coercing variant, when the query resolves without an error
    but with a payload that is absent or not an array, [fetchPricingPlans]
    returns the empty sequence, normally, and the shared error reporter
    is not invoked. *)
Theorem coercing_malformed_payload pf supabase options data error :
  answers supabase "pricing_plans" data error ->
  truthy error = false ->
  isArray data = false ->
  result (Coercing.fetchPricingPlans pf supabase options) = Normal (VArr []) /\
  reports (trace (Coercing.fetchPricingPlans pf supabase options)) = 0%nat.
Proof.
  intros Hq He Hd.
  destruct (Hq _ (q_table_pricing_coercing
    (param_default (of_number (opt_limit options)) (VNum 1000))
    (param_default (of_boolean (opt_is_featured options)) (VBool false))))
    as (r & Hr & Hdata & Herr).
  unfold Coercing.fetchPricingPlans. js_run.
  rewrite Hr; cbn. rewrite Hdata; cbn. rewrite Herr; cbn.
  rewrite He, Hd, orb_true_r. cbn. split; reflexivity.
Qed.

Lemma coercing_malformed_payload_witness :
  result (Coercing.fetchPricingPlans Sample.browser
            (Sample.answering (VStr "oops") VNull)
            {| opt_limit := Some 2; opt_is_featured := Some true |})
    = Normal (VArr []) /\
  reports (trace (Coercing.fetchPricingPlans Sample.browser
            (Sample.answering (VStr "oops") VNull)
            {| opt_limit := Some 2; opt_is_featured := Some true |})) = 0%nat.
Proof.
  apply (coercing_malformed_payload _ _ _ (VStr "oops") VNull).
  - intros q _. eexists. repeat split; reflexivity.
  - reflexivity.
  - reflexivity.
Defined.

(** C4 (as stated, refuted on the coercing variant): with a backend that
    answers the pricing query with an error, the coercing variant returns
    the empty sequence but the shared error reporter is not invoked
    once. *)
Lemma coercing_error_not_reported :
  ~ (result (Coercing.fetchPricingPlans Sample.browser
               (Sample.answering VNull Sample.query_error)
               {| opt_limit := None; opt_is_featured := None |})
       = Normal (VArr []) /\
     reports (trace (Coercing.fetchPricingPlans Sample.browser
               (Sample.answering VNull Sample.query_error)
               {| opt_limit := None; opt_is_featured := None |})) = 1%nat).
Proof. intros [_ H]. vm_compute in H. discriminate H. Qed.

(** C4 (amended). When the pricing query resolves with an error, both
    variants return the empty sequence.  The pass-through variant throws
    the error into its own handler, which invokes the shared error
    reporter exactly once, with that error; the coercing variant logs the
    error on the console and does not invoke the reporter. *)
Theorem pricing_query_error pf supabase options data error :
  answers supabase "pricing_plans" data error ->
  truthy error = true ->
  (result (Coercing.fetchPricingPlans pf supabase options) = Normal (VArr []) /\
   reports (trace (Coercing.fetchPricingPlans pf supabase options)) = 0%nat /\
   In (EConsole "error" [VStr "Supabase error:"; error])
      (trace (Coercing.fetchPricingPlans pf supabase options))) /\
  (result (PassThrough.fetchPricingPlans supabase options) = Normal (VArr []) /\
   reports (trace (PassThrough.fetchPricingPlans supabase options)) = 1%nat /\
   In (EHandlerApiError error)
      (trace (PassThrough.fetchPricingPlans supabase options))).
Proof.
  intros Hq He. split.
  - destruct (Hq _ (q_table_pricing_coercing
      (param_default (of_number (opt_limit options)) (VNum 1000))
      (param_default (of_boolean (opt_is_featured options)) (VBool false))))
      as (r & Hr & Hdata & Herr).
    unfold Coercing.fetchPricingPlans. js_run.
    rewrite Hr; cbn. rewrite Hdata; cbn. rewrite Herr; cbn. rewrite He. cbn.
    repeat split. right. left. reflexivity.
  - destruct (Hq _ (q_table_pricing_passthrough
      (coalesce (of_number (opt_limit options)) (VNum 1000))
      (coalesce (of_boolean (opt_is_featured options)) (VBool false))))
      as (r & Hr & Hdata & Herr).
    unfold PassThrough.fetchPricingPlans. js_run.
    rewrite Hr; cbn. rewrite Hdata; cbn. rewrite Herr; cbn. rewrite He. cbn.
    repeat split. right. left. reflexivity.
Qed.

Lemma pricing_query_error_witness :
  (result (Coercing.fetchPricingPlans Sample.browser
             (Sample.answering VNull Sample.query_error)
             {| opt_limit := Some 2; opt_is_featured := None |}) = Normal (VArr []) /\
   reports (trace (Coercing.fetchPricingPlans Sample.browser
             (Sample.answering VNull Sample.query_error)
             {| opt_limit := Some 2; opt_is_featured := None |})) = 0%nat /\
   In (EConsole "error" [VStr "Supabase error:"; Sample.query_error])
      (trace (Coercing.fetchPricingPlans Sample.browser
             (Sample.answering VNull Sample.query_error)
             {| opt_limit := Some 2; opt_is_featured := None |}))) /\
  (result (PassThrough.fetchPricingPlans
             (Sample.answering VNull Sample.query_error)
             {| opt_limit := Some 2; opt_is_featured := None |}) = Normal (VArr []) /\
   reports (trace (PassThrough.fetchPricingPlans
             (Sample.answering VNull Sample.query_error)
             {| opt_limit := Some 2; opt_is_featured := None |})) = 1%nat /\
   In (EHandlerApiError Sample.query_error)
      (trace (PassThrough.fetchPricingPlans
             (Sample.answering VNull Sample.query_error)
             {| opt_limit := Some 2; opt_is_featured := None |}))).
Proof.
  apply (pricing_query_error _ _ _ VNull Sample.query_error).
  - intros q _. eexists. repeat split; reflexivity.
  - reflexivity.
Defined.

(** ** The user profile *)

(** C5. When [auth.getUser()] resolves with an error, [fetchUserProfile]
    returns [null] and issues no query to the backend query client, in
    both variants. *)
Theorem getUser_error_no_query pf supabase data userError :
  responds (auth_getUser supabase) data userError ->
  nullish data = false ->
  truthy userError = true ->
  (result (Coercing.fetchUserProfile pf supabase) = Normal VNull /\
   queries (trace (Coercing.fetchUserProfile pf supabase)) = []) /\
  (result (PassThrough.fetchUserProfile supabase) = Normal VNull /\
   queries (trace (PassThrough.fetchUserProfile supabase)) = []).
Proof.
  intros (r & Hr & Hdata & Herr) Hd He.
  destruct (get_prop_defined data "user" Hd) as [user Hu].
  split.
  - unfold Coercing.fetchUserProfile. js_run.
    rewrite Hr; cbn. rewrite Hdata; cbn. rewrite Hu; cbn. rewrite Herr; cbn.
    rewrite He. cbn. split; reflexivity.
  - unfold PassThrough.fetchUserProfile. js_run.
    rewrite Hr; cbn. rewrite Hdata; cbn. rewrite Hu; cbn. rewrite Herr; cbn.
    rewrite He. cbn. split; reflexivity.
Qed.

Lemma getUser_error_no_query_witness :
  (result (Coercing.fetchUserProfile Sample.browser Sample.signed_out) = Normal VNull /\
   queries (trace (Coercing.fetchUserProfile Sample.browser Sample.signed_out)) = []) /\
  (result (PassThrough.fetchUserProfile Sample.signed_out) = Normal VNull /\
   queries (trace (PassThrough.fetchUserProfile Sample.signed_out)) = []).
Proof.
  apply (getUser_error_no_query _ _ (obj [("user", VNull)]) Sample.auth_error).
  - eexists. repeat split; reflexivity.
  - reflexivity.
  - reflexivity.
Defined.

(** C9. In the coercing variant, when the user is authenticated and the
    profile row's joined [pricing_plans] relation is [null] or absent,
    the relation is wrapped into a one-element list, reading the first
    property of that element throws, and [fetchUserProfile] returns
    [null] (not a profile with an empty plan list) after invoking the
    shared error reporter once, with the [TypeError]. *)
Theorem coercing_null_relation pf supabase user data plans :
  authenticated supabase user ->
  profile_row supabase data ->
  get_prop data "pricing_plans" = Normal plans ->
  nullish plans = true ->
  result (Coercing.fetchUserProfile pf supabase) = Normal VNull /\
  List.filter is_report (trace (Coercing.fetchUserProfile pf supabase)) =
    [EHandlerApiError (TypeError ("Cannot read properties of " +:+ typeof plans))].
Proof.
  intros (udata & uerr & (r & Hr & Hudata & Huerr) & Huser & Hne & Hu)
         (error & Hq & He & Hd) Hp Hn.
  destruct (get_prop_defined user "id" (truthy_not_nullish _ Hu)) as [uid Huid].
  destruct (Hq (Coercing.profileQuery uid) eq_refl) as (r2 & Hr2 & Hdata & Herr).
  pose proof (truthy_not_nullish _ Hd) as Hdn.
  destruct (get_prop_defined data "id" Hdn) as [v1 H1].
  destruct (get_prop_defined data "name" Hdn) as [v2 H2].
  destruct (get_prop_defined data "first_name" Hdn) as [v3 H3].
  destruct (get_prop_defined data "last_name" Hdn) as [v4 H4].
  destruct (get_prop_defined data "email" Hdn) as [v5 H5].
  destruct (get_prop_defined data "picture" Hdn) as [v6 H6].
  destruct (get_prop_defined data "is_subscribed" Hdn) as [v7 H7].
  destruct (get_prop_defined data "plan_id" Hdn) as [v8 H8].
  destruct (get_prop_defined data "stripe_customer_id" Hdn) as [v9 H9].
  unfold Coercing.fetchUserProfile. js_run.
  rewrite Hr; cbn. rewrite Hudata; cbn. rewrite Huser; cbn. rewrite Huerr; cbn.
  rewrite Hne, Hu; cbn. rewrite Huid; cbn. rewrite Hr2; cbn.
  rewrite Hdata; cbn. rewrite Herr; cbn. rewrite He, Hd; cbn.
  rewrite Hp; cbn. rewrite H1; cbn. rewrite H2; cbn. rewrite H3; cbn.
  rewrite H4; cbn. rewrite H5; cbn. rewrite H6; cbn. rewrite H7; cbn.
  rewrite H8; cbn. rewrite H9; cbn.
  assert (isArray plans = false) as -> by (destruct plans; cbn in *; congruence).
  unfold Coercing.toProfilePlan. js_run.
  rewrite (get_prop_nullish plans "id" Hn). cbn. split; reflexivity.
Qed.

Lemma coercing_null_relation_witness :
  result (Coercing.fetchUserProfile Sample.browser
            (Sample.answering Sample.profile_without_plan VNull)) = Normal VNull /\
  List.filter is_report (trace (Coercing.fetchUserProfile Sample.browser
            (Sample.answering Sample.profile_without_plan VNull))) =
    [EHandlerApiError (TypeError ("Cannot read properties of " +:+ typeof VNull))].
Proof.
  apply (coercing_null_relation _ _ Sample.user Sample.profile_without_plan VNull).
  - do 2 eexists. split; [eexists; repeat split; reflexivity|].
    repeat split; reflexivity.
  - exists VNull. split; [|split; reflexivity].
    intros q _. eexists. repeat split; reflexivity.
  - reflexivity.
  - reflexivity.
Defined.

(** ** The boundary *)

Lemma try_catch_returns {A} (body : M A) (handler : value -> M A) :
  (forall e t, exists a t', handler e t = (Normal a, t')) ->
  forall t, exists a t', try_catch body handler t = (Normal a, t').
Proof.
  intros Hh t. unfold try_catch.
  destruct (body t) as [[a|e] t']; eauto.
Qed.

Lemma report_returns (v : value) e t :
  exists a t', (handlerApiError e;; mret v) t = (Normal a, t').
Proof. js_run. eauto. Qed.

Lemma returns_try_catch (body : M value) (v : value -> value) :
  returns (try_catch body (fun error => handlerApiError error;; mret (v error))).
Proof.
  destruct (try_catch_returns body
              (fun error => handlerApiError error;; mret (v error))
              (fun e => report_returns (v e) e) [])
    as (a & t' & H).
  exists a. unfold result, run. now rewrite H.
Qed.

(** C1 (refuted on the pass-through variant). [fetchUserProfile] of the
    pass-through variant has no [try]/[catch]: when [auth.getUser()]
    throws, the thrown value reaches the caller, and nothing is
    reported. *)
Theorem passthrough_profile_propagates supabase e :
  auth_getUser supabase = Throw e ->
  run (PassThrough.fetchUserProfile supabase) = (Throw e, [EGetUser]).
Proof.
  intros H. unfold PassThrough.fetchUserProfile. js_run. now rewrite H.
Qed.

Lemma passthrough_profile_propagates_witness :
  run (PassThrough.fetchUserProfile Sample.offline)
  = (Throw Sample.network_error, [EGetUser]).
Proof. apply (passthrough_profile_propagates Sample.offline). reflexivity. Defined.

(** The other nine operations return whatever the collaborators do. *)
Lemma operations_return pf supabase options :
  returns (Coercing.fetchPricingPlans pf supabase options) /\
  returns (Coercing.fetchUserProfile pf supabase) /\
  returns (Coercing.loginWithGithub pf supabase) /\
  returns (Coercing.loginWithLinkedIn pf supabase) /\
  returns (Coercing.logout supabase) /\
  returns (PassThrough.fetchPricingPlans supabase options) /\
  returns (PassThrough.loginWithGithub supabase) /\
  returns (PassThrough.loginWithLinkedIn pf supabase) /\
  returns (PassThrough.logout supabase).
Proof.
  repeat split;
    first [ apply (returns_try_catch _ (fun _ => VArr []))
          | apply (returns_try_catch _ (fun _ => VNull))
          | apply (returns_try_catch _ (fun _ => VUndef))
          | apply (returns_try_catch _ (fun error => obj [("error", error)])) ].
Qed.

(** ** The joined pricing-plan relation *)

(** The coercing variant wraps a single object into a one-element
    collection and maps it. *)
Lemma coercing_single_relation pf supabase user data fields :
  authenticated supabase user ->
  profile_row supabase data ->
  get_prop data "pricing_plans" = Normal (VObj fields) ->
  exists profile plan,
    result (Coercing.fetchUserProfile pf supabase) = Normal profile /\
    get_prop profile "pricing_plans" = Normal (VArr [plan]) /\
    result (Coercing.toProfilePlan pf (VObj fields)) = Normal plan.
Proof.
  intros (udata & uerr & (r & Hr & Hudata & Huerr) & Huser & Hne & Hu)
         (error & Hq & He & Hd) Hp.
  destruct (get_prop_defined user "id" (truthy_not_nullish _ Hu)) as [uid Huid].
  destruct (Hq (Coercing.profileQuery uid) eq_refl) as (r2 & Hr2 & Hdata & Herr).
  pose proof (truthy_not_nullish _ Hd) as Hdn.
  js_fields data Hdn ["id"; "name"; "first_name"; "last_name"; "email";
                      "picture"; "is_subscribed"; "plan_id"; "stripe_customer_id"].
  unfold Coercing.fetchUserProfile, Coercing.toProfilePlan. js_run. js_known.
  do 2 eexists. split; [reflexivity|]. split; reflexivity.
Qed.

(** C2 (refuted on the pass-through variant). For an authenticated user
    whose profile row carries the joined pricing-plan relation as a single
    object, the pass-through variant returns a profile whose plan
    collection is empty: the object is dropped, not wrapped. *)
Theorem passthrough_single_relation_dropped supabase user data fields :
  authenticated supabase user ->
  profile_row supabase data ->
  get_prop data "pricing_plans" = Normal (VObj fields) ->
  exists profile,
    result (PassThrough.fetchUserProfile supabase) = Normal profile /\
    get_prop profile "pricing_plans" = Normal (VArr []).
Proof.
  intros (udata & uerr & (r & Hr & Hudata & Huerr) & Huser & Hne & Hu)
         (error & Hq & He & Hd) Hp.
  destruct (get_prop_defined user "id" (truthy_not_nullish _ Hu)) as [uid Huid].
  destruct (Hq (PassThrough.profileQuery uid) eq_refl) as (r2 & Hr2 & Hdata & Herr).
  pose proof (truthy_not_nullish _ Hd) as Hdn.
  js_fields data Hdn ["id"; "name"; "first_name"; "last_name"; "email";
                      "picture"; "is_subscribed"; "plan_id"; "stripe_customer_id"].
  unfold PassThrough.fetchUserProfile. js_run. js_known.
  eexists. split; reflexivity.
Qed.

Lemma passthrough_single_relation_dropped_witness :
  exists profile,
    result (PassThrough.fetchUserProfile
              (Sample.answering Sample.profile_with_plan VNull)) = Normal profile /\
    get_prop profile "pricing_plans" = Normal (VArr []).
Proof.
  apply (passthrough_single_relation_dropped _ Sample.user Sample.profile_with_plan
           (list_to_map [("id", VStr "p1"); ("name", VStr "Starter");
                         ("slug", VStr "starter"); ("price_monthly", VNum 9);
                         ("price_yearly", VNum 90)])).
  - do 2 eexists. split; [eexists; repeat split; reflexivity|].
    repeat split; reflexivity.
  - exists VNull. split; [|split; reflexivity].
    intros q _. eexists. repeat split; reflexivity.
  - reflexivity.
Defined.

(** ** The pricing-plan lister *)

Lemma nullish_falsy v : nullish v = true -> truthy v = false.
Proof. destruct v; cbn; congruence. Qed.

Lemma or_else_defined v d : nullish d = false -> nullish (or_else v d) = false.
Proof.
  intros Hd. unfold or_else. destruct (truthy v) eqn:Hv; [|exact Hd].
  now apply truthy_not_nullish.
Qed.

Lemma or_else_default v d : nullish v = true -> or_else v d = d.
Proof. intros Hv. unfold or_else. now rewrite (nullish_falsy v Hv). Qed.

Lemma number_defined n : nullish (number n) = false.
Proof. now destruct n. Qed.

(** The [map] callback of the coercing lister is pure; it throws on a
    [null] or [undefined] row and populates every other row. *)
Lemma toPricingPlan_throws pf row t :
  nullish row = true ->
  Coercing.toPricingPlan pf row t =
    (Throw (TypeError ("Cannot read properties of " +:+ typeof row)), t).
Proof.
  intros Hn. unfold Coercing.toPricingPlan. js_run.
  now rewrite (get_prop_nullish row "id" Hn).
Qed.

Lemma toPricingPlan_populates pf row t :
  nullish row = false ->
  exists plan,
    Coercing.toPricingPlan pf row t = (Normal plan, t) /\
    populated_from row plan.
Proof.
  intros Hn.
  js_fields row Hn ["id"; "name"; "slug"; "description"; "cta"; "most_popular";
                    "is_featured"; "pricing_features"; "price_monthly";
                    "price_yearly"].
  unfold Coercing.toPricingPlan. js_run. js_known.
  eexists. split; [reflexivity|].
  intros k d Hin. cbn in Hin.
  repeat (destruct Hin as [[= <- <-]|Hin]); [..|contradiction];
    (eexists; split; [rewrite get_prop_obj; cbn; reflexivity|]; split;
     [ first [ reflexivity
             | apply or_else_defined; reflexivity
             | destruct (truthy _); [apply number_defined|reflexivity] ]
     | intros w' Hw' Hnull;
       match goal with
       | H : get_prop row ?k = Normal ?w |- _ =>
           lazymatch type of Hw' with
           | get_prop row k = _ => rewrite H in Hw'; injection Hw' as <-
           end
       end;
       first [ apply or_else_default; assumption
             | rewrite (nullish_falsy _ Hnull); reflexivity
             | match goal with
               | |- context [match ?w with _ => _ end] =>
                   destruct w; try discriminate Hnull; reflexivity
               end ] ]).
Qed.

Lemma populated_from_populated row plan : populated_from row plan -> populated plan.
Proof.
  intros H k d Hin. destruct (H k d Hin) as (v & Hv & Hn & _). eauto.
Qed.

Lemma Forall2_populated rows plans :
  Forall2 populated_from rows plans -> Forall populated plans.
Proof.
  induction 1; constructor; eauto using populated_from_populated.
Qed.

Lemma bind_run {A B} (m : M A) (f : A -> M B) t :
  (m ≫= f) t =
  match m t with
  | (Normal a, t') => f a t'
  | (Throw e, t') => (Throw e, t')
  end.
Proof. reflexivity. Qed.

Lemma map_items_toPricingPlan pf rows t :
  (exists e, map_items (Coercing.toPricingPlan pf) rows t = (Throw e, t)) \/
  (exists plans,
     map_items (Coercing.toPricingPlan pf) rows t = (Normal plans, t) /\
     Forall2 populated_from rows plans).
Proof.
  induction rows as [|row rows IH].
  - right. exists []. split; [reflexivity|constructor].
  - cbn [map_items]. rewrite bind_run.
    destruct (nullish row) eqn:Hn.
    + left. rewrite (toPricingPlan_throws pf row t Hn). eauto.
    + destruct (toPricingPlan_populates pf row t Hn) as (plan & -> & Hp).
      rewrite bind_run.
      destruct IH as [[e ->]|(plans & -> & Hps)].
      * left. eauto.
      * right. exists (plan :: plans). split; [reflexivity|now constructor].
Qed.

Lemma map_items_defined pf rows t :
  Forall (fun row => nullish row = false) rows ->
  exists plans,
    map_items (Coercing.toPricingPlan pf) rows t = (Normal plans, t) /\
    Forall2 populated_from rows plans.
Proof.
  induction 1 as [|row rows Hn _ IH].
  - exists []. split; [reflexivity|constructor].
  - cbn [map_items]. rewrite bind_run.
    destruct (toPricingPlan_populates pf row t Hn) as (plan & -> & Hp).
    rewrite bind_run.
    destruct IH as (plans & -> & Hps).
    exists (plan :: plans). split; [reflexivity|now constructor].
Qed.

Lemma array_payload data :
  (negb (truthy data) || negb (isArray data))%bool = false ->
  exists rows, data = VArr rows.
Proof.
  destruct data; cbn; rewrite ?orb_true_r; intros H; try discriminate H; eauto.
Qed.

(** Whatever the backend does, the coercing lister sends one query and
    returns a sequence of populated plans. *)
Lemma coercing_plans_run pf supabase options :
  exists plans rest,
    run (Coercing.fetchPricingPlans pf supabase options) =
      (Normal (VArr plans),
       EQuery (Coercing.pricingPlansQuery
                 (param_default (of_number (opt_limit options)) (VNum 1000))
                 (param_default (of_boolean (opt_is_featured options)) (VBool false)))
       :: rest) /\
    Forall populated plans /\
    queries rest = [].
Proof.
  unfold Coercing.fetchPricingPlans. js_run.
  destruct (postgrest supabase _) as [r|e]; cbn;
    [|exists [], [EHandlerApiError e]; repeat split; constructor].
  destruct (get_prop r "data") as [data|e]; cbn;
    [|exists [], [EHandlerApiError e]; repeat split; constructor].
  destruct (get_prop r "error") as [error|e]; cbn;
    [|exists [], [EHandlerApiError e]; repeat split; constructor].
  destruct (truthy error); cbn;
    [eexists [], [_]; repeat split; constructor|].
  destruct (negb (truthy data) || negb (isArray data))%bool eqn:Hd; cbn;
    [eexists [], [_]; repeat split; constructor|].
  destruct (array_payload data Hd) as [rows ->]. cbn. rewrite bind_run.
  destruct (map_items_toPricingPlan pf rows
    [EQuery (Coercing.pricingPlansQuery
               (param_default (of_number (opt_limit options)) (VNum 1000))
               (param_default (of_boolean (opt_is_featured options)) (VBool false)))])
    as [[e ->]|(plans & -> & Hps)]; cbn.
  - exists [], [EHandlerApiError e]; repeat split; constructor.
  - exists plans, []. repeat split. exact (Forall2_populated rows plans Hps).
Qed.

(** The pass-through lister sends one query and never returns absence. *)
Lemma passthrough_plans_run supabase options :
  exists v rest,
    run (PassThrough.fetchPricingPlans supabase options) =
      (Normal v,
       EQuery (PassThrough.pricingPlansQuery
                 (coalesce (of_number (opt_limit options)) (VNum 1000))
                 (coalesce (of_boolean (opt_is_featured options)) (VBool false)))
       :: rest) /\
    nullish v = false /\
    queries rest = [].
Proof.
  unfold PassThrough.fetchPricingPlans. js_run.
  destruct (postgrest supabase _) as [r|e]; cbn;
    [|exists (VArr []), [EHandlerApiError e]; repeat split].
  destruct (get_prop r "data") as [data|e]; cbn;
    [|exists (VArr []), [EHandlerApiError e]; repeat split].
  destruct (get_prop r "error") as [error|e]; cbn;
    [|exists (VArr []), [EHandlerApiError e]; repeat split].
  destruct (truthy error); cbn;
    [exists (VArr []), [EHandlerApiError error]; repeat split|].
  exists (coalesce data (VArr [])), []. repeat split.
  unfold coalesce. now destruct (nullish data) eqn:Hd.
Qed.

Lemma queries_cons q rest : queries (EQuery q :: rest) = q :: queries rest.
Proof. reflexivity. Qed.

(** C3 (refuted). With [is_featured] omitted, the default [false] makes
    the [typeof] guard hold: both variants send exactly one query, and it
    carries the equality filter [is_featured = false]. *)
Theorem omitted_is_featured_filters pf supabase limit :
  (exists q,
     queries (trace (Coercing.fetchPricingPlans pf supabase
                       {| opt_limit := limit; opt_is_featured := None |})) = [q] /\
     q_filters q = [("is_featured", VBool false)]) /\
  (exists q,
     queries (trace (PassThrough.fetchPricingPlans supabase
                       {| opt_limit := limit; opt_is_featured := None |})) = [q] /\
     q_filters q = [("is_featured", VBool false)]).
Proof.
  split.
  - destruct (coercing_plans_run pf supabase
                {| opt_limit := limit; opt_is_featured := None |})
      as (plans & rest & Hrun & _ & Hrest).
    eexists. unfold trace. rewrite Hrun. cbn [snd].
    rewrite queries_cons, Hrest. split; reflexivity.
  - destruct (passthrough_plans_run supabase
                {| opt_limit := limit; opt_is_featured := None |})
      as (v & rest & Hrun & _ & Hrest).
    eexists. unfold trace. rewrite Hrun. cbn [snd].
    rewrite queries_cons, Hrest. split; reflexivity.
Qed.

(** On the sample table, the featured plans are left out when
    [is_featured] is omitted: only the free plan comes back. *)
Example omitted_is_featured_sample :
  ids (result (Coercing.fetchPricingPlans Sample.browser
                        (Backend.serve Sample.shop Sample.offline) Sample.no_options))
    = [Normal (VStr "free")] /\
  ids (result (PassThrough.fetchPricingPlans
                        (Backend.serve Sample.shop Sample.offline) Sample.no_options))
    = [Normal (VStr "free")].
Proof. split; vm_compute; reflexivity. Qed.

(** ** Over the reference backend *)

Section SortFacts.

Context {A : Type} (leb : A -> A -> bool).

Lemma insert_sorted_perm x l : Permutation (Backend.insert_sorted leb x l) (x :: l).
Proof.
  induction l as [|y l IH]; cbn; [reflexivity|].
  destruct (leb x y); [reflexivity|].
  rewrite IH. apply perm_swap.
Qed.

Lemma sort_perm l : Permutation (Backend.sort leb l) l.
Proof.
  induction l as [|x l IH]; cbn; [reflexivity|].
  rewrite insert_sorted_perm. now constructor.
Qed.

Context (key : A -> Z) (P : A -> Prop).
Hypothesis leb_key : forall a b, P a -> P b -> leb a b = Z.leb (key a) (key b).

Lemma insert_sorted_sorted x l :
  P x -> Forall P l ->
  StronglySorted (fun a b => key a <= key b) l ->
  StronglySorted (fun a b => key a <= key b) (Backend.insert_sorted leb x l).
Proof.
  intros Hx Hl Hs. induction Hs as [|y l Hs IH Hy]; cbn.
  - repeat constructor.
  - inversion Hl as [|? ? Py Pl]; subst.
    rewrite (leb_key x y Hx Py).
    destruct (Z.leb_spec (key x) (key y)) as [Hle|Hgt].
    + constructor; [now constructor|].
      constructor; [exact Hle|].
      eapply Forall_impl; [exact Hy|]. cbn. intros a Ha. lia.
    + constructor; [now apply IH|].
      eapply Permutation_Forall; [symmetry; apply insert_sorted_perm|].
      constructor; [lia|exact Hy].
Qed.

Lemma sort_sorted l :
  Forall P l -> StronglySorted (fun a b => key a <= key b) (Backend.sort leb l).
Proof.
  induction 1 as [|x l Hx Hl IH]; cbn; [constructor|].
  apply insert_sorted_sorted; [exact Hx| |exact IH].
  eapply Permutation_Forall; [symmetry; apply sort_perm|exact Hl].
Qed.

End SortFacts.

Lemma by_price r1 r2 :
  Backend.priced r1 -> Backend.priced r2 ->
  Backend.by_column "price_monthly" r1 r2 = Z.leb (Backend.price r1) (Backend.price r2).
Proof.
  intros [n1 H1] [n2 H2]. unfold Backend.by_column, Backend.price.
  now rewrite H1, H2.
Qed.

Lemma get_prop_response_data data error :
  get_prop (Backend.response data error) "data" = Normal data.
Proof. unfold Backend.response. now rewrite get_prop_obj. Qed.

Lemma get_prop_response_error data error :
  get_prop (Backend.response data error) "error" = Normal error.
Proof. unfold Backend.response. now rewrite get_prop_obj. Qed.

Lemma limited_length (n : nat) (rows : list (gmap string value)) :
  (length (Backend.limited (Some (VNum (Z.of_nat n))) rows) <= n)%nat.
Proof. cbn. rewrite Nat2Z.id, length_take. lia. Qed.

Lemma answer_length db q (n : nat) :
  q_limit q = Some (VNum (Z.of_nat n)) ->
  (length (Backend.answer db q) <= n)%nat.
Proof.
  intros Hq. unfold Backend.answer, Backend.selected.
  rewrite length_map, Hq. apply limited_length.
Qed.

Lemma answer_defined db q :
  Forall (fun row => nullish row = false) (Backend.answer db q).
Proof. unfold Backend.answer. apply Forall_map, Forall_forall. reflexivity. Qed.

(** What the listers return when the query resolves without an error. *)
Lemma coercing_plans_success pf supabase options rows error :
  responds (postgrest supabase
              (Coercing.pricingPlansQuery
                 (param_default (of_number (opt_limit options)) (VNum 1000))
                 (param_default (of_boolean (opt_is_featured options)) (VBool false))))
           (VArr rows) error ->
  truthy error = false ->
  Forall (fun row => nullish row = false) rows ->
  exists plans,
    result (Coercing.fetchPricingPlans pf supabase options) = Normal (VArr plans) /\
    Forall2 populated_from rows plans.
Proof.
  intros (r & Hr & Hdata & Herr) He Hrows.
  unfold Coercing.fetchPricingPlans. js_run. js_known.
  rewrite bind_run.
  destruct (map_items_defined pf rows
    [EQuery (Coercing.pricingPlansQuery
               (param_default (of_number (opt_limit options)) (VNum 1000))
               (param_default (of_boolean (opt_is_featured options)) (VBool false)))]
    Hrows) as (plans & -> & Hps).
  exists plans. split; [reflexivity|exact Hps].
Qed.

Lemma passthrough_plans_success supabase options data error :
  responds (postgrest supabase
              (PassThrough.pricingPlansQuery
                 (coalesce (of_number (opt_limit options)) (VNum 1000))
                 (coalesce (of_boolean (opt_is_featured options)) (VBool false))))
           data error ->
  truthy error = false ->
  result (PassThrough.fetchPricingPlans supabase options)
  = Normal (coalesce data (VArr [])).
Proof.
  intros (r & Hr & Hdata & Herr) He.
  unfold PassThrough.fetchPricingPlans. js_run. js_known. reflexivity.
Qed.

Lemma q_single_pricing_coercing limit is_featured :
  q_single (Coercing.pricingPlansQuery limit is_featured) = false.
Proof. unfold Coercing.pricingPlansQuery. now destruct (String.eqb _ _). Qed.

Lemma q_single_pricing_passthrough limit is_featured :
  q_single (PassThrough.pricingPlansQuery limit is_featured) = false.
Proof. unfold PassThrough.pricingPlansQuery. now destruct (String.eqb _ _). Qed.

Lemma q_limit_pricing_coercing limit is_featured :
  q_limit (Coercing.pricingPlansQuery limit is_featured) = Some limit.
Proof. unfold Coercing.pricingPlansQuery. now destruct (String.eqb _ _). Qed.

Lemma q_limit_pricing_passthrough limit is_featured :
  q_limit (PassThrough.pricingPlansQuery limit is_featured) = Some limit.
Proof. unfold PassThrough.pricingPlansQuery. now destruct (String.eqb _ _). Qed.

Lemma served_rows db supabase q :
  q_single q = false ->
  responds (postgrest (Backend.serve db supabase) q) (VArr (Backend.answer db q)) VNull.
Proof.
  intros Hq. eexists. split; [reflexivity|].
  unfold Backend.exec. rewrite Hq.
  split; [apply get_prop_response_data|apply get_prop_response_error].
Qed.

(** C8 (as stated, refuted on the pass-through variant): the backend
    answers with a row that holds an [id] and nothing else; the
    pass-through lister hands the row on as it is, so its [name] is
    absent. *)
Lemma passthrough_not_populated :
  ~ bounded_populated
      (PassThrough.fetchPricingPlans
         (Sample.answering (VArr [obj [("id", VStr "p1")]]) VNull)
         Sample.two_featured) 2.
Proof.
  intros (plans & Hr & _ & Hp).
  vm_compute in Hr. injection Hr as <-.
  inversion Hp as [|plan rest H _]; subst.
  destruct (H "name" (VStr "Unknown")) as (v & Hv & Hn);
    [right; left; reflexivity|].
  vm_compute in Hv. injection Hv as <-. discriminate Hn.
Qed.

(** C8 (amended). Whatever the collaborators do, [fetchPricingPlans]
    returns normally and never returns absence: the coercing variant
    returns a sequence whose elements hold all ten fields, none absent; the
    pass-through variant returns a value that is neither [null] nor
    [undefined].  Over a backend that honours the query it is sent, with
    the limit [n], the coercing variant returns at most [n] plans, one per
    row answered, each holding the default wherever the row holds nothing,
    and the pass-through variant returns the at most [n] rows answered,
    unchanged. *)
Theorem plans_sequence pf supabase options db (n : nat) is_featured :
  (exists plans,
     result (Coercing.fetchPricingPlans pf supabase options) = Normal (VArr plans) /\
     Forall populated plans) /\
  (exists v,
     result (PassThrough.fetchPricingPlans supabase options) = Normal v /\
     nullish v = false) /\
  (exists plans,
     result (Coercing.fetchPricingPlans pf (Backend.serve db supabase)
               {| opt_limit := Some (Z.of_nat n); opt_is_featured := is_featured |})
       = Normal (VArr plans) /\
     (length plans <= n)%nat /\
     Forall2 populated_from
       (Backend.answer db
          (Coercing.pricingPlansQuery (VNum (Z.of_nat n))
             (param_default (of_boolean is_featured) (VBool false))))
       plans) /\
  (result (PassThrough.fetchPricingPlans (Backend.serve db supabase)
             {| opt_limit := Some (Z.of_nat n); opt_is_featured := is_featured |})
     = Normal (VArr (Backend.answer db
                       (PassThrough.pricingPlansQuery (VNum (Z.of_nat n))
                          (coalesce (of_boolean is_featured) (VBool false))))) /\
   (length (Backend.answer db
              (PassThrough.pricingPlansQuery (VNum (Z.of_nat n))
                 (coalesce (of_boolean is_featured) (VBool false)))) <= n)%nat).
Proof.
  split; [|split; [|split]].
  - destruct (coercing_plans_run pf supabase options)
      as (plans & rest & Hrun & Hp & _).
    exists plans. unfold result. now rewrite Hrun.
  - destruct (passthrough_plans_run supabase options)
      as (v & rest & Hrun & Hv & _).
    exists v. unfold result. now rewrite Hrun.
  - destruct (coercing_plans_success pf (Backend.serve db supabase)
                {| opt_limit := Some (Z.of_nat n); opt_is_featured := is_featured |}
                _ VNull
                (served_rows db supabase _ (q_single_pricing_coercing _ _))
                eq_refl (answer_defined db _))
      as (plans & Hres & Hps).
    exists plans. split; [exact Hres|]. split; [|exact Hps].
    rewrite <- (Forall2_length _ _ _ Hps).
    apply answer_length, q_limit_pricing_coercing.
  - split.
    + apply (passthrough_plans_success (Backend.serve db supabase)
               {| opt_limit := Some (Z.of_nat n); opt_is_featured := is_featured |}
               _ VNull
               (served_rows db supabase _ (q_single_pricing_passthrough _ _))
               eq_refl).
    + apply answer_length, q_limit_pricing_passthrough.
Qed.

Lemma passthrough_columns :
  Backend.columns PassThrough.selectQuery =
    ["id"; "name"; "slug"; "price_monthly"; "price_yearly"; "description";
     "cta"; "most_popular"; "is_featured"; "pricing_features"].
Proof. vm_compute. reflexivity. Qed.

Lemma coercing_columns :
  Backend.columns Coercing.selectQuery =
    ["id"; "name"; "slug"; "description"; "cta"; "most_popular"; "is_featured";
     "pricing_features"].
Proof. vm_compute. reflexivity. Qed.

Lemma passthrough_row_id (r : gmap string value) :
  get_prop (VObj (Backend.project (Backend.columns PassThrough.selectQuery) r)) "id"
  = Normal (Backend.column r "id").
Proof.
  rewrite passthrough_columns. unfold Backend.project.
  exact (get_prop_obj _ "id").
Qed.

Lemma filter_featured (rows : list (gmap string value)) :
  List.filter (Backend.matches [("is_featured", VBool true)]) rows
  = List.filter Backend.featured rows.
Proof.
  apply List.filter_ext. intros r. unfold Backend.matches, Backend.featured. cbn.
  apply andb_true_r.
Qed.

Lemma sample_featured :
  List.filter Backend.featured (Sample.shop "pricing_plans") =
    [Sample.plan_row "team" "Team" 49 true;
     Sample.plan_row "basic" "Basic" 5 true;
     Sample.plan_row "agency" "Agency" 99 true;
     Sample.plan_row "solo" "Solo" 9 true;
     Sample.plan_row "company" "Company" 199 true].
Proof. reflexivity. Qed.

Lemma plan_row_id id name monthly is_featured :
  Backend.column (Sample.plan_row id name monthly is_featured) "id" = VStr id.
Proof. reflexivity. Qed.

Lemma plan_row_price id name monthly is_featured :
  Backend.price (Sample.plan_row id name monthly is_featured) = monthly.
Proof. reflexivity. Qed.

Lemma coercing_sample_ids :
  ids (result (Coercing.fetchPricingPlans Sample.browser
                 (Backend.serve Sample.shop Sample.offline) Sample.two_featured))
  = [Normal (VStr "agency"); Normal (VStr "basic")].
Proof. vm_compute. reflexivity. Qed.

(** C7 (as stated, refuted on the coercing variant): over the sample
    table, whose five featured plans cost 5, 9, 49, 99 and 199, the
    coercing variant orders by name and answers Agency (99) and Basic (5),
    not the two cheapest. *)
Lemma coercing_not_two_cheapest :
  ~ two_cheapest Sample.shop
      (Coercing.fetchPricingPlans Sample.browser
         (Backend.serve Sample.shop Sample.offline) Sample.two_featured).
Proof.
  intros (r1 & r2 & rest & Hperm & Hids & Hle & _).
  assert (Hin1 : In r1 (List.filter Backend.featured (Sample.shop "pricing_plans")))
    by (eapply Permutation_in; [symmetry; exact Hperm|left; reflexivity]).
  assert (Hin2 : In r2 (List.filter Backend.featured (Sample.shop "pricing_plans")))
    by (eapply Permutation_in; [symmetry; exact Hperm|right; left; reflexivity]).
  clear Hperm. rewrite sample_featured in Hin1, Hin2.
  rewrite coercing_sample_ids in Hids.
  cbn [In] in Hin1, Hin2.
  repeat (destruct Hin1 as [<-|Hin1]); try (destruct Hin1);
    repeat (destruct Hin2 as [<-|Hin2]); try (destruct Hin2);
    rewrite !plan_row_id in Hids; try discriminate Hids.
  all: rewrite !plan_row_price in Hle; lia.
Qed.

(** Ascending order of texts, as the backend compares names. *)
Lemma ascii_lt_trans a b c :
  Ascii.compare a b = Lt -> Ascii.compare b c = Lt -> Ascii.compare a c = Lt.
Proof. unfold Ascii.compare. rewrite !N.compare_lt_iff. lia. Qed.

Lemma string_lt_trans s1 s2 s3 :
  String.compare s1 s2 = Lt -> String.compare s2 s3 = Lt ->
  String.compare s1 s3 = Lt.
Proof.
  revert s2 s3. induction s1 as [|a s1 IH]; intros [|b s2] [|c s3]; cbn;
    try discriminate; try reflexivity.
  destruct (Ascii.compare a b) eqn:Hab; try discriminate;
    destruct (Ascii.compare b c) eqn:Hbc; try discriminate; intros H1 H2.
  - apply Ascii.compare_eq_iff in Hab, Hbc. subst.
    assert (Ascii.compare c c = Eq) as ->
      by (unfold Ascii.compare; apply N.compare_refl).
    eauto.
  - apply Ascii.compare_eq_iff in Hab. subst. now rewrite Hbc.
  - apply Ascii.compare_eq_iff in Hbc. subst. now rewrite Hab.
  - now rewrite (ascii_lt_trans a b c Hab Hbc).
Qed.

Lemma string_leb_trans s1 s2 s3 :
  String.leb s1 s2 = true -> String.leb s2 s3 = true -> String.leb s1 s3 = true.
Proof.
  unfold String.leb.
  destruct (String.compare s1 s2) eqn:H12; try discriminate;
    destruct (String.compare s2 s3) eqn:H23; try discriminate; intros _ _.
  - apply String.compare_eq_iff in H12. subst. now rewrite H23.
  - apply String.compare_eq_iff in H12. subst. now rewrite H23.
  - apply String.compare_eq_iff in H23. subst. now rewrite H12.
  - now rewrite (string_lt_trans s1 s2 s3 H12 H23).
Qed.

Section SortOrder.

Context {A : Type} (leb : A -> A -> bool) (P : A -> Prop).
Hypothesis leb_total : forall a b, P a -> P b -> leb a b = true \/ leb b a = true.
Hypothesis leb_trans : forall a b c,
  P a -> P b -> P c -> leb a b = true -> leb b c = true -> leb a c = true.

Lemma insert_sorted_ordered x l :
  P x -> Forall P l ->
  StronglySorted (fun a b => leb a b = true) l ->
  StronglySorted (fun a b => leb a b = true) (Backend.insert_sorted leb x l).
Proof.
  intros Hx Hl Hs. induction Hs as [|y l Hs IH Hy]; cbn.
  - repeat constructor.
  - inversion Hl as [|? ? Py Pl]; subst.
    destruct (leb x y) eqn:Hxy.
    + constructor; [now constructor|].
      constructor; [exact Hxy|].
      rewrite Forall_forall in Hy, Pl. apply Forall_forall. intros z Hz.
      apply (leb_trans x y z); auto.
    + constructor; [now apply IH|].
      eapply Permutation_Forall; [symmetry; apply insert_sorted_perm|].
      constructor; [|exact Hy].
      destruct (leb_total x y Hx Py) as [H|H]; [congruence|exact H].
Qed.

Lemma sort_ordered l :
  Forall P l -> StronglySorted (fun a b => leb a b = true) (Backend.sort leb l).
Proof.
  induction 1 as [|x l Hx Hl IH]; cbn; [constructor|].
  apply insert_sorted_ordered; [exact Hx| |exact IH].
  eapply Permutation_Forall; [symmetry; apply sort_perm|exact Hl].
Qed.

End SortOrder.

Lemma by_name r1 r2 :
  named r1 -> named r2 ->
  Backend.by_column "name" r1 r2 = String.leb (plan_name r1) (plan_name r2).
Proof.
  intros [n1 H1] [n2 H2]. unfold Backend.by_column, plan_name.
  now rewrite H1, H2.
Qed.

(** The [map] callback of the coercing lister leaves the trace alone. *)
Lemma toPricingPlan_pure pf row t :
  Coercing.toPricingPlan pf row t = (result (Coercing.toPricingPlan pf row), t).
Proof.
  destruct (nullish row) eqn:Hn.
  - unfold result, run. now rewrite !(toPricingPlan_throws pf row _ Hn).
  - js_fields row Hn ["id"; "name"; "slug"; "description"; "cta"; "most_popular";
                      "is_featured"; "pricing_features"; "price_monthly";
                      "price_yearly"].
    unfold Coercing.toPricingPlan. js_run. js_known. reflexivity.
Qed.

Lemma map_items_images pf rows plans t :
  Forall2 (fun row plan => result (Coercing.toPricingPlan pf row) = Normal plan)
          rows plans ->
  map_items (Coercing.toPricingPlan pf) rows t = (Normal plans, t).
Proof.
  induction 1 as [|row plan rows plans Hp _ IH]; [reflexivity|].
  cbn [map_items]. rewrite bind_run, toPricingPlan_pure, Hp.
  rewrite bind_run, IH. reflexivity.
Qed.

(** The coercing lister returns the images of the rows it is answered. *)
Lemma coercing_plans_images pf supabase options rows error plans :
  responds (postgrest supabase
              (Coercing.pricingPlansQuery
                 (param_default (of_number (opt_limit options)) (VNum 1000))
                 (param_default (of_boolean (opt_is_featured options)) (VBool false))))
           (VArr rows) error ->
  truthy error = false ->
  Forall2 (fun row plan => result (Coercing.toPricingPlan pf row) = Normal plan)
          rows plans ->
  result (Coercing.fetchPricingPlans pf supabase options) = Normal (VArr plans).
Proof.
  intros (r & Hr & Hdata & Herr) He Himg.
  unfold Coercing.fetchPricingPlans. js_run. js_known.
  now rewrite bind_run, (map_items_images pf rows plans _ Himg).
Qed.

Lemma projected_row_image pf (r : gmap string value) :
  exists plan,
    result (Coercing.toPricingPlan pf
              (VObj (Backend.project (Backend.columns Coercing.selectQuery) r)))
    = Normal plan.
Proof.
  destruct (toPricingPlan_populates pf
              (VObj (Backend.project (Backend.columns Coercing.selectQuery) r))
              [] eq_refl) as (plan & H & _).
  exists plan. unfold result, run. now rewrite H.
Qed.

(** Over the reference backend, with five featured plans that have a text
    for a name, the coercing lister returns the first two in ascending
    name order. *)
Lemma coercing_first_two pf supabase db :
  length (List.filter Backend.featured (db "pricing_plans")) = 5%nat ->
  Forall named (List.filter Backend.featured (db "pricing_plans")) ->
  first_two_by_name pf db
    (Coercing.fetchPricingPlans pf (Backend.serve db supabase) Sample.two_featured).
Proof.
  intros Hlen Hnamed.
  assert (Hans :
    Backend.answer db (Coercing.pricingPlansQuery (VNum 2) (VBool true))
    = map (fun r => VObj (Backend.project
                            (Backend.columns Coercing.selectQuery) r))
        (take 2
           (Backend.sort (Backend.by_column "name")
              (List.filter (Backend.matches [("is_featured", VBool true)])
                 (db "pricing_plans")))))
    by reflexivity.
  rewrite filter_featured in Hans.
  set (rows := List.filter Backend.featured (db "pricing_plans")) in *.
  pose proof (sort_perm (Backend.by_column "name") rows) as Hperm.
  assert (Hsorted : StronglySorted
            (fun a b => Backend.by_column "name" a b = true)
            (Backend.sort (Backend.by_column "name") rows)).
  { apply (sort_ordered (Backend.by_column "name") named); [| |exact Hnamed].
    - intros a b Ha Hb. rewrite (by_name a b Ha Hb), (by_name b a Hb Ha).
      apply String.leb_total.
    - intros a b c Ha Hb Hc.
      rewrite (by_name a b Ha Hb), (by_name b c Hb Hc), (by_name a c Ha Hc).
      apply string_leb_trans. }
  assert (Hnamed' : Forall named (Backend.sort (Backend.by_column "name") rows))
    by (eapply Permutation_Forall; [symmetry; exact Hperm|exact Hnamed]).
  pose proof (Permutation_length Hperm) as Hlen'. rewrite Hlen in Hlen'.
  destruct (Backend.sort (Backend.by_column "name") rows)
    as [|r1 [|r2 rest]]; try discriminate Hlen'.
  cbn [firstn map] in Hans. rewrite take_0 in Hans. cbn [map] in Hans.
  apply StronglySorted_inv in Hsorted as [Hsorted H1].
  apply StronglySorted_inv in Hsorted as [_ H2].
  inversion Hnamed' as [|? ? N1 Hn']; subst.
  inversion Hn' as [|? ? N2 Nrest]; subst.
  destruct (projected_row_image pf r1) as [p1 Hp1].
  destruct (projected_row_image pf r2) as [p2 Hp2].
  exists r1, r2, rest, p1, p2.
  split; [symmetry; exact Hperm|].
  split; [|split; [exact Hp1|split; [exact Hp2|split]]].
  - eapply (coercing_plans_images pf (Backend.serve db supabase)
              Sample.two_featured _ VNull [p1; p2]).
    + apply served_rows, q_single_pricing_coercing.
    + reflexivity.
    + change (Backend.answer db
                (Coercing.pricingPlansQuery
                   (param_default (of_number (opt_limit Sample.two_featured)) (VNum 1000))
                   (param_default (of_boolean (opt_is_featured Sample.two_featured))
                      (VBool false))))
        with (Backend.answer db (Coercing.pricingPlansQuery (VNum 2) (VBool true))).
      rewrite Hans. repeat constructor; assumption.
  - inversion H1 as [|? ? H12 _]; subst.
    now rewrite <- (by_name r1 r2 N1 N2).
  - rewrite Forall_forall in H2, Nrest. apply Forall_forall. intros r Hr.
    rewrite <- (by_name r2 r N2 (Nrest r Hr)). exact (H2 r Hr).
Qed.

(** C7 (amended). Called with [limit = 2] and [is_featured = true] over a
    backend that holds five featured plans, each with a numeric monthly
    price, the pass-through variant returns exactly two plans, and they
    are the two featured plans with the lowest monthly price.  The
    coercing variant sends its one query filtered on [is_featured = true]
    and ordered by [name], with the same limit; when the five plans have
    a text for a name it returns exactly two plans, and they are the first
    two featured plans in ascending name order, each shaped by its [map]
    callback from the columns selected. *)
Theorem passthrough_two_cheapest pf supabase db :
  length (List.filter Backend.featured (db "pricing_plans")) = 5%nat ->
  Forall Backend.priced (List.filter Backend.featured (db "pricing_plans")) ->
  (exists p1 p2,
     result (PassThrough.fetchPricingPlans (Backend.serve db supabase)
               Sample.two_featured) = Normal (VArr [p1; p2])) /\
  two_cheapest db
    (PassThrough.fetchPricingPlans (Backend.serve db supabase) Sample.two_featured) /\
  (exists q,
     queries (trace (Coercing.fetchPricingPlans pf (Backend.serve db supabase)
                       Sample.two_featured)) = [q] /\
     q_filters q = [("is_featured", VBool true)] /\
     q_order q = Some ("name", true) /\
     q_limit q = Some (VNum 2)) /\
  (Forall named (List.filter Backend.featured (db "pricing_plans")) ->
   first_two_by_name pf db
     (Coercing.fetchPricingPlans pf (Backend.serve db supabase) Sample.two_featured)).
Proof.
  intros Hlen Hpriced.
  assert (Hres :
    result (PassThrough.fetchPricingPlans (Backend.serve db supabase)
              Sample.two_featured)
    = Normal (VArr
        (map (fun r => VObj (Backend.project
                               (Backend.columns PassThrough.selectQuery) r))
           (take 2
              (Backend.sort (Backend.by_column "price_monthly")
                 (List.filter (Backend.matches [("is_featured", VBool true)])
                    (db "pricing_plans")))))))
    by exact (passthrough_plans_success (Backend.serve db supabase)
                Sample.two_featured _ VNull
                (served_rows db supabase _ (q_single_pricing_passthrough _ _))
                eq_refl).
  rewrite filter_featured in Hres.
  pose proof (coercing_first_two pf supabase db Hlen) as Hfirst.
  set (rows := List.filter Backend.featured (db "pricing_plans")) in *.
  pose proof (sort_perm (Backend.by_column "price_monthly") rows) as Hperm.
  pose proof (sort_sorted (Backend.by_column "price_monthly")
                Backend.price Backend.priced by_price rows Hpriced) as Hsorted.
  pose proof (Permutation_length Hperm) as Hlen'. rewrite Hlen in Hlen'.
  destruct (Backend.sort (Backend.by_column "price_monthly") rows)
    as [|r1 [|r2 rest]]; try discriminate Hlen'.
  cbn [firstn map] in Hres.
  apply StronglySorted_inv in Hsorted as [Hsorted H1].
  apply StronglySorted_inv in Hsorted as [_ H2].
  split; [|split; [|split]].
  - do 2 eexists. exact Hres.
  - exists r1, r2, rest. split; [symmetry; exact Hperm|].
    split; [|split; [|exact H2]].
    + rewrite Hres. cbn [ids map]. now rewrite !passthrough_row_id.
    + now inversion H1.
  - destruct (coercing_plans_run pf (Backend.serve db supabase) Sample.two_featured)
      as (plans & rest' & Hrun & _ & Hrest).
    eexists. unfold trace. rewrite Hrun. cbn [snd].
    rewrite queries_cons, Hrest. repeat split.
  - exact Hfirst.
Qed.

Lemma passthrough_two_cheapest_witness :
  (exists p1 p2,
     result (PassThrough.fetchPricingPlans (Backend.serve Sample.shop Sample.offline)
               Sample.two_featured) = Normal (VArr [p1; p2])) /\
  two_cheapest Sample.shop
    (PassThrough.fetchPricingPlans (Backend.serve Sample.shop Sample.offline)
       Sample.two_featured) /\
  (exists q,
     queries (trace (Coercing.fetchPricingPlans Sample.browser
                       (Backend.serve Sample.shop Sample.offline)
                       Sample.two_featured)) = [q] /\
     q_filters q = [("is_featured", VBool true)] /\
     q_order q = Some ("name", true) /\
     q_limit q = Some (VNum 2)) /\
  first_two_by_name Sample.browser Sample.shop
    (Coercing.fetchPricingPlans Sample.browser
       (Backend.serve Sample.shop Sample.offline) Sample.two_featured).
Proof.
  destruct (passthrough_two_cheapest Sample.browser Sample.offline Sample.shop)
    as (H1 & H2 & H3 & H4).
  - reflexivity.
  - change (Forall Backend.priced
              [Sample.plan_row "team" "Team" 49 true;
               Sample.plan_row "basic" "Basic" 5 true;
               Sample.plan_row "agency" "Agency" 99 true;
               Sample.plan_row "solo" "Solo" 9 true;
               Sample.plan_row "company" "Company" 199 true]).
    repeat constructor; eexists; reflexivity.
  - split; [exact H1|]. split; [exact H2|]. split; [exact H3|].
    apply H4.
    change (Forall named
              [Sample.plan_row "team" "Team" 49 true;
               Sample.plan_row "basic" "Basic" 5 true;
               Sample.plan_row "agency" "Agency" 99 true;
               Sample.plan_row "solo" "Solo" 9 true;
               Sample.plan_row "company" "Company" 199 true]).
    repeat constructor; eexists; reflexivity.
Defined.

(** On the sample table the pass-through variant answers Basic and Solo. *)
Example passthrough_two_cheapest_sample :
  ids (result (PassThrough.fetchPricingPlans
                 (Backend.serve Sample.shop Sample.offline) Sample.two_featured))
  = [Normal (VStr "basic"); Normal (VStr "solo")] /\
  ids (result (Coercing.fetchPricingPlans Sample.browser
                 (Backend.serve Sample.shop Sample.offline) Sample.two_featured))
  = [Normal (VStr "agency"); Normal (VStr "basic")].
Proof. split; vm_compute; reflexivity. Qed.

(** ** Login and logout *)

(** C6 (as stated, refuted on the pass-through variant): the provider
    answers the sign-in with an error, and [loginWithGithub] of the
    pass-through variant resolves with [undefined], not with an outcome
    whose [error] is populated. *)
Lemma passthrough_login_no_outcome :
  ~ exists outcome error,
      result (PassThrough.loginWithGithub Sample.failing_auth) = Normal outcome /\
      get_prop outcome "error" = Normal error /\
      truthy error = true.
Proof.
  intros (outcome & error & Hres & Herr & _).
  vm_compute in Hres. injection Hres as <-. discriminate Herr.
Qed.

Lemma coercing_outcome (call : M value) (c : completion value) ev :
  call = await ev c ->
  result (try_catch
            (response ← call;
             error ← prop response "error";
             mret (obj [("error", error)]))
            (fun error => handlerApiError error;; mret (obj [("error", error)])))
  = Normal (obj [("error", outcome_error c)]).
Proof.
  intros ->. js_run. unfold outcome_error.
  destruct c as [response|e]; cbn; [|reflexivity].
  destruct (get_prop response "error"); reflexivity.
Qed.

(** C6 (amended). No exception escapes [loginWithGithub],
    [loginWithLinkedIn] or [logout], whatever the auth collaborator does.
    In the coercing variant each returns an outcome object whose [error]
    field is the [error] the collaborator resolved with ([null] or absent
    on success, the error on failure) or the value it threw.  In the
    pass-through variant the two logins resolve with [undefined] and hand
    no outcome on, and [logout] returns the outcome object whenever
    [signOut] resolves. *)
Theorem auth_outcomes pf supabase :
  (result (Coercing.loginWithGithub pf supabase)
   = Normal (obj [("error",
       outcome_error (auth_signInWithOAuth supabase
                        (credentials "github" (window_location_origin pf))))]) /\
   result (Coercing.loginWithLinkedIn pf supabase)
   = Normal (obj [("error",
       outcome_error (auth_signInWithOAuth supabase
                        (credentials "linkedin" (window_location_origin pf))))]) /\
   result (Coercing.logout supabase)
   = Normal (obj [("error", outcome_error (auth_signOut supabase))])) /\
  (result (PassThrough.loginWithGithub supabase) = Normal VUndef /\
   result (PassThrough.loginWithLinkedIn pf supabase) = Normal VUndef /\
   exists outcome,
     result (PassThrough.logout supabase) = Normal outcome /\
     forall response error,
       auth_signOut supabase = Normal response ->
       get_prop response "error" = Normal error ->
       outcome = obj [("error", error)]).
Proof.
  split; [split; [|split]|split; [|split]].
  - exact (coercing_outcome _ _ _ eq_refl).
  - exact (coercing_outcome _ _ _ eq_refl).
  - exact (coercing_outcome _ _ _ eq_refl).
  - unfold PassThrough.loginWithGithub. js_run.
    now destruct (auth_signInWithOAuth supabase _).
  - unfold PassThrough.loginWithLinkedIn. js_run.
    now destruct (auth_signInWithOAuth supabase _).
  - unfold PassThrough.logout. js_run.
    destruct (auth_signOut supabase) as [response|e]; cbn.
    + destruct (get_prop response "error") as [error|e] eqn:Herr; cbn.
      * eexists. split; [reflexivity|].
        intros response' error' [= <-] Herr'. rewrite Herr in Herr'.
        now injection Herr' as <-.
      * eexists. split; [reflexivity|].
        intros response' error' [= <-] Herr'. rewrite Herr in Herr'.
        discriminate Herr'.
    + eexists. split; [reflexivity|]. intros response error Hr. discriminate Hr.
Qed.

(** With a provider that answers with an error, the coercing logins
    surface it and the pass-through logins drop it. *)
Example failing_auth_sample :
  result (Coercing.loginWithGithub Sample.browser Sample.failing_auth)
  = Normal (obj [("error", Sample.auth_error)]) /\
  result (Coercing.logout Sample.failing_auth)
  = Normal (obj [("error", Sample.auth_error)]) /\
  result (PassThrough.loginWithLinkedIn Sample.browser Sample.failing_auth)
  = Normal VUndef /\
  result (PassThrough.logout Sample.offline) = Normal VUndef.
Proof. repeat split; vm_compute; reflexivity. Qed.

(** * Further properties of the two variants *)

(** ** What an operation never calls *)

Section Only.

Context (P : event -> Prop).

Lemma only_ret {A} (a : A) : only P (mret a).
Proof. intros t. exists (Normal a), []. now rewrite app_nil_r. Qed.

Lemma only_throw {A} (e : value) : only P (mthrow e : M A).
Proof. intros t. exists (Throw e), []. now rewrite app_nil_r. Qed.

Lemma only_lift {A} (c : completion A) : only P (lift c).
Proof. intros t. exists c, []. now rewrite app_nil_r. Qed.

Lemma only_emit ev : P ev -> only P (emit ev).
Proof. intros H t. exists (Normal tt), [ev]. split; [reflexivity|now constructor]. Qed.

Lemma only_bind {A B} (m : M A) (f : A -> M B) :
  only P m -> (forall a, only P (f a)) -> only P (m ≫= f).
Proof.
  intros Hm Hf t. rewrite bind_run.
  destruct (Hm t) as ([a|e] & t1 & -> & H1).
  - destruct (Hf a (t ++ t1)%list) as (c & t2 & -> & H2).
    exists c, (t1 ++ t2)%list. rewrite app_assoc. split; [reflexivity|].
    apply Forall_app. now split.
  - exists (Throw e), t1. now split.
Qed.

Lemma only_try_catch {A} (body : M A) (handler : value -> M A) :
  only P body -> (forall e, only P (handler e)) -> only P (try_catch body handler).
Proof.
  intros Hb Hh t. unfold try_catch.
  destruct (Hb t) as ([a|e] & t1 & -> & H1).
  - exists (Normal a), t1. now split.
  - destruct (Hh e (t ++ t1)%list) as (c & t2 & -> & H2).
    exists c, (t1 ++ t2)%list. rewrite app_assoc. split; [reflexivity|].
    apply Forall_app. now split.
Qed.

Lemma only_map_items (f : value -> M value) items :
  (forall x, only P (f x)) -> only P (map_items f items).
Proof.
  intros Hf. induction items as [|x rest IH]; cbn [map_items].
  - apply only_ret.
  - apply only_bind; [apply Hf|]. intros y.
    apply only_bind; [exact IH|]. intros ys. apply only_ret.
Qed.

Lemma only_array_map (f : value -> M value) arr :
  (forall x, only P (f x)) -> only P (array_map f arr).
Proof.
  intros Hf. destruct arr; cbn [array_map]; try apply only_throw.
  apply only_bind; [now apply only_map_items|]. intros ys. apply only_ret.
Qed.

Lemma only_trace {A} (m : M A) : only P m -> Forall P (trace m).
Proof.
  intros H. unfold trace, run. destruct (H []) as (c & t' & -> & Ht). exact Ht.
Qed.

End Only.

Ltac only_steps :=
  repeat first
    [ apply only_ret
    | apply only_throw
    | apply only_lift
    | apply only_emit; reflexivity
    | apply only_bind; [|intros ?]
    | apply only_try_catch; [|intros ?]
    | apply only_array_map; intros ?
    | match goal with
      | |- only _ (if ?b then _ else _) => destruct b
      end
    | progress cbn beta zeta ].

Ltac only_auto :=
  unfold Coercing.fetchPricingPlans, Coercing.fetchUserProfile,
    Coercing.loginWithGithub, Coercing.loginWithLinkedIn, Coercing.logout,
    PassThrough.fetchPricingPlans, PassThrough.fetchUserProfile,
    PassThrough.loginWithGithub, PassThrough.loginWithLinkedIn,
    PassThrough.logout,
    Coercing.toPricingPlan, Coercing.toProfilePlan, PassThrough.toProfilePlan,
    send, getUser, signInWithOAuth, signOut, await, prop, console,
    handlerApiError;
  only_steps.

(** X17. Whatever the collaborators do, the pricing-plan listers never
    call the auth client, [fetchUserProfile] never starts a sign-in and
    never signs out, and the logins and [logout] never read the user or
    the database, in both variants. *)
Theorem operations_stay_in_lane pf supabase options :
  (Forall (fun ev => touches_auth ev = false)
     (trace (Coercing.fetchPricingPlans pf supabase options)) /\
   Forall (fun ev => touches_auth ev = false)
     (trace (PassThrough.fetchPricingPlans supabase options))) /\
  (Forall (fun ev => changes_session ev = false)
     (trace (Coercing.fetchUserProfile pf supabase)) /\
   Forall (fun ev => changes_session ev = false)
     (trace (PassThrough.fetchUserProfile supabase))) /\
  (Forall (fun ev => reads_backend ev = false)
     (trace (Coercing.loginWithGithub pf supabase)) /\
   Forall (fun ev => reads_backend ev = false)
     (trace (Coercing.loginWithLinkedIn pf supabase)) /\
   Forall (fun ev => reads_backend ev = false)
     (trace (Coercing.logout supabase)) /\
   Forall (fun ev => reads_backend ev = false)
     (trace (PassThrough.loginWithGithub supabase)) /\
   Forall (fun ev => reads_backend ev = false)
     (trace (PassThrough.loginWithLinkedIn pf supabase)) /\
   Forall (fun ev => reads_backend ev = false)
     (trace (PassThrough.logout supabase))).
Proof.
  repeat split; apply only_trace; only_auto.
Qed.

(** ** The pricing-plan listers, case by case *)

Lemma await_run ev c t : await ev c t = (c, (t ++ [ev])%list).
Proof. reflexivity. Qed.

Lemma prop_run v k t : prop v k t = (get_prop v k, t).
Proof. reflexivity. Qed.

Lemma failed_cases c :
  failed c = true ->
  (exists e, c = Throw e) \/
  (exists response, c = Normal response /\ nullish response = true).
Proof. destruct c as [response|e]; cbn; eauto. Qed.

(** X1. When the awaited pricing query fails to hand an object on (it
    throws, or resolves with [null] or [undefined]), both listers return
    the empty sequence and invoke the shared error reporter exactly
    once. *)
Theorem lister_failed_query pf supabase options :
  (forall q, q_table q = "pricing_plans" -> failed (postgrest supabase q) = true) ->
  (result (Coercing.fetchPricingPlans pf supabase options) = Normal (VArr []) /\
   reports (trace (Coercing.fetchPricingPlans pf supabase options)) = 1%nat) /\
  (result (PassThrough.fetchPricingPlans supabase options) = Normal (VArr []) /\
   reports (trace (PassThrough.fetchPricingPlans supabase options)) = 1%nat).
Proof.
  intros Hq. split.
  - destruct (failed_cases _ (Hq _ (q_table_pricing_coercing
      (param_default (of_number (opt_limit options)) (VNum 1000))
      (param_default (of_boolean (opt_is_featured options)) (VBool false)))))
      as [[e He]|(r & Hr & Hn)];
      unfold Coercing.fetchPricingPlans; js_run.
    + rewrite He. cbn. split; reflexivity.
    + rewrite Hr. cbn. rewrite (get_prop_nullish r "data" Hn). cbn.
      split; reflexivity.
  - destruct (failed_cases _ (Hq _ (q_table_pricing_passthrough
      (coalesce (of_number (opt_limit options)) (VNum 1000))
      (coalesce (of_boolean (opt_is_featured options)) (VBool false)))))
      as [[e He]|(r & Hr & Hn)];
      unfold PassThrough.fetchPricingPlans; js_run.
    + rewrite He. cbn. split; reflexivity.
    + rewrite Hr. cbn. rewrite (get_prop_nullish r "data" Hn). cbn.
      split; reflexivity.
Qed.

Lemma lister_failed_query_witness :
  (result (Coercing.fetchPricingPlans Sample.browser Sample.offline Sample.no_options)
     = Normal (VArr []) /\
   reports (trace (Coercing.fetchPricingPlans Sample.browser Sample.offline
                     Sample.no_options)) = 1%nat) /\
  (result (PassThrough.fetchPricingPlans Sample.offline Sample.no_options)
     = Normal (VArr []) /\
   reports (trace (PassThrough.fetchPricingPlans Sample.offline Sample.no_options))
     = 1%nat).
Proof.
  apply (lister_failed_query Sample.browser Sample.offline Sample.no_options).
  intros q _. reflexivity.
Defined.

(** X2. Whatever the backend does, each lister sends exactly one query:
    on [pricing_plans], in multi-row mode, filtered on [is_featured] equal
    to the flag given ([false] when omitted), limited to the limit given
    (1000 when omitted), ascending by [name] in the coercing variant and
    by [price_monthly] in the pass-through variant.  The coercing variant
    sends its template literal with the whitespace collapsed, and that
    select list names no price column. *)
Theorem lister_query_sent pf supabase options :
  queries (trace (Coercing.fetchPricingPlans pf supabase options)) =
    [Query "pricing_plans"
       "id, name, slug, description, cta, most_popular, is_featured, pricing_features(id, name)"
       [("is_featured", VBool (default false (opt_is_featured options)))]
       (Some ("name", true))
       (Some (VNum (default 1000 (opt_limit options))))
       false] /\
  queries (trace (PassThrough.fetchPricingPlans supabase options)) =
    [Query "pricing_plans"
       "id, name, slug, price_monthly, price_yearly, description, cta, most_popular, is_featured, pricing_features(id,name)"
       [("is_featured", VBool (default false (opt_is_featured options)))]
       (Some ("price_monthly", true))
       (Some (VNum (default 1000 (opt_limit options))))
       false].
Proof.
  split.
  - destruct (coercing_plans_run pf supabase options)
      as (plans & rest & Hrun & _ & Hrest).
    unfold trace. rewrite Hrun. cbn [snd]. rewrite queries_cons, Hrest.
    destruct options as [[n|] [b|]]; reflexivity.
  - destruct (passthrough_plans_run supabase options)
      as (v & rest & Hrun & _ & Hrest).
    unfold trace. rewrite Hrun. cbn [snd]. rewrite queries_cons, Hrest.
    destruct options as [[n|] [b|]]; reflexivity.
Qed.

Section RowMapper.

Context (f : value -> M value).
Hypothesis f_null : forall row t,
  nullish row = true ->
  f row t = (Throw (TypeError ("Cannot read properties of " +:+ typeof row)), t).
Hypothesis f_row : forall row t,
  nullish row = false -> exists plan, f row t = (Normal plan, t).

Lemma map_items_null rows t :
  Exists (fun row => nullish row = true) rows ->
  exists row,
    nullish row = true /\
    map_items f rows t =
      (Throw (TypeError ("Cannot read properties of " +:+ typeof row)), t).
Proof.
  induction rows as [|row rows IH]; intros Hex; [now inversion Hex|].
  cbn [map_items]. rewrite bind_run.
  destruct (nullish row) eqn:Hn.
  - exists row. now rewrite (f_null row t Hn).
  - destruct (f_row row t Hn) as [plan ->]. rewrite bind_run.
    inversion Hex as [? ? Hrow|? ? Hrest]; subst; [congruence|].
    destruct (IH Hrest) as (row' & Hn' & ->). eauto.
Qed.

Lemma map_items_rows rows t :
  Forall (fun row => nullish row = false) rows ->
  exists plans,
    map_items f rows t = (Normal plans, t) /\ length plans = length rows.
Proof.
  induction 1 as [|row rows Hn _ IH].
  - exists []. split; reflexivity.
  - cbn [map_items]. rewrite bind_run.
    destruct (f_row row t Hn) as [plan ->]. rewrite bind_run.
    destruct IH as (plans & -> & Hlen).
    exists (plan :: plans). cbn. now rewrite Hlen.
Qed.

End RowMapper.

Lemma toPricingPlan_returns pf row t :
  nullish row = false -> exists plan, Coercing.toPricingPlan pf row t = (Normal plan, t).
Proof.
  intros Hn. destruct (toPricingPlan_populates pf row t Hn) as (plan & H & _). eauto.
Qed.

(** X3. In the coercing variant one [null] or [undefined] row in the
    payload discards the whole answer: the lister returns the empty
    sequence and invokes the shared error reporter once, with the
    [TypeError] raised on that row. *)
Theorem coercing_null_row_discards_all pf supabase options rows error :
  answers supabase "pricing_plans" (VArr rows) error ->
  truthy error = false ->
  Exists (fun row => nullish row = true) rows ->
  result (Coercing.fetchPricingPlans pf supabase options) = Normal (VArr []) /\
  exists row,
    nullish row = true /\
    List.filter is_report (trace (Coercing.fetchPricingPlans pf supabase options)) =
      [EHandlerApiError (TypeError ("Cannot read properties of " +:+ typeof row))].
Proof.
  intros Hq He Hex.
  destruct (Hq _ (q_table_pricing_coercing
    (param_default (of_number (opt_limit options)) (VNum 1000))
    (param_default (of_boolean (opt_is_featured options)) (VBool false))))
    as (r & Hr & Hdata & Herr).
  unfold Coercing.fetchPricingPlans. js_run. js_known. rewrite bind_run.
  destruct (map_items_null (Coercing.toPricingPlan pf)
              (toPricingPlan_throws pf) (toPricingPlan_returns pf) rows
              [EQuery (Coercing.pricingPlansQuery
                 (param_default (of_number (opt_limit options)) (VNum 1000))
                 (param_default (of_boolean (opt_is_featured options)) (VBool false)))]
              Hex) as (row & Hn & ->).
  cbn. split; [reflexivity|]. exists row. split; [exact Hn|reflexivity].
Qed.

Lemma coercing_null_row_discards_all_witness :
  result (Coercing.fetchPricingPlans Sample.browser
            (Sample.answering (VArr [Sample.starter_plan; VNull]) VNull)
            Sample.no_options) = Normal (VArr []) /\
  exists row,
    nullish row = true /\
    List.filter is_report
      (trace (Coercing.fetchPricingPlans Sample.browser
                (Sample.answering (VArr [Sample.starter_plan; VNull]) VNull)
                Sample.no_options)) =
      [EHandlerApiError (TypeError ("Cannot read properties of " +:+ typeof row))].
Proof.
  apply (coercing_null_row_discards_all _ _ _ [Sample.starter_plan; VNull] VNull).
  - intros q _. eexists. repeat split; reflexivity.
  - reflexivity.
  - right. left. reflexivity.
Defined.

(** X4. In the coercing variant, when the query resolves without an error
    and with an array of rows none of which is [null] or [undefined], the
    lister returns one plan per row, in the order of the rows, each
    holding all ten fields with the default wherever its row holds
    nothing; nothing is logged and nothing is reported. *)
Theorem coercing_one_plan_per_row pf supabase options rows error :
  answers supabase "pricing_plans" (VArr rows) error ->
  truthy error = false ->
  Forall (fun row => nullish row = false) rows ->
  exists plans,
    result (Coercing.fetchPricingPlans pf supabase options) = Normal (VArr plans) /\
    Forall2 populated_from rows plans /\
    length (trace (Coercing.fetchPricingPlans pf supabase options)) = 1%nat.
Proof.
  intros Hq He Hrows.
  destruct (Hq _ (q_table_pricing_coercing
    (param_default (of_number (opt_limit options)) (VNum 1000))
    (param_default (of_boolean (opt_is_featured options)) (VBool false))))
    as (r & Hr & Hdata & Herr).
  unfold Coercing.fetchPricingPlans. js_run. js_known. rewrite bind_run.
  destruct (map_items_defined pf rows
    [EQuery (Coercing.pricingPlansQuery
               (param_default (of_number (opt_limit options)) (VNum 1000))
               (param_default (of_boolean (opt_is_featured options)) (VBool false)))]
    Hrows) as (plans & -> & Hps).
  exists plans. cbn. repeat split. exact Hps.
Qed.

Lemma coercing_one_plan_per_row_witness :
  exists plans,
    result (Coercing.fetchPricingPlans Sample.browser
              (Sample.answering (VArr [Sample.starter_plan; obj []]) VNull)
              Sample.no_options) = Normal (VArr plans) /\
    Forall2 populated_from [Sample.starter_plan; obj []] plans /\
    length (trace (Coercing.fetchPricingPlans Sample.browser
              (Sample.answering (VArr [Sample.starter_plan; obj []]) VNull)
              Sample.no_options)) = 1%nat.
Proof.
  apply (coercing_one_plan_per_row _ _ _ [Sample.starter_plan; obj []] VNull).
  - intros q _. eexists. repeat split; reflexivity.
  - reflexivity.
  - repeat constructor.
Defined.

(** X7. The pass-through lister does not look at the payload: when the
    query resolves without an error, a payload that is neither [null] nor
    [undefined] is returned as it is, array or not, and an absent payload
    becomes the empty sequence; the shared error reporter is not
    invoked. *)
Theorem passthrough_payload_unchecked supabase options data error :
  answers supabase "pricing_plans" data error ->
  truthy error = false ->
  result (PassThrough.fetchPricingPlans supabase options)
    = Normal (if nullish data then VArr [] else data) /\
  reports (trace (PassThrough.fetchPricingPlans supabase options)) = 0%nat.
Proof.
  intros Hq He.
  destruct (Hq _ (q_table_pricing_passthrough
    (coalesce (of_number (opt_limit options)) (VNum 1000))
    (coalesce (of_boolean (opt_is_featured options)) (VBool false))))
    as (r & Hr & Hdata & Herr).
  unfold PassThrough.fetchPricingPlans. js_run. js_known. split; reflexivity.
Qed.

Lemma passthrough_payload_unchecked_witness :
  result (PassThrough.fetchPricingPlans (Sample.answering (VStr "oops") VNull)
            Sample.two_featured)
    = Normal (if nullish (VStr "oops") then VArr [] else VStr "oops") /\
  reports (trace (PassThrough.fetchPricingPlans
                    (Sample.answering (VStr "oops") VNull) Sample.two_featured))
    = 0%nat.
Proof.
  apply (passthrough_payload_unchecked _ _ (VStr "oops") VNull).
  - intros q _. eexists. repeat split; reflexivity.
  - reflexivity.
Defined.

Lemma toPricingPlan_typed pf row t :
  nullish row = false ->
  exists plan,
    Coercing.toPricingPlan pf row t = (Normal plan, t) /\ typed_plan plan.
Proof.
  intros Hn.
  js_fields row Hn ["id"; "name"; "slug"; "description"; "cta"; "most_popular";
                    "is_featured"; "pricing_features"; "price_monthly";
                    "price_yearly"].
  unfold Coercing.toPricingPlan. js_run. js_known.
  eexists. split; [reflexivity|].
  unfold typed_plan. rewrite !get_prop_obj. cbn.
  repeat split; try (eexists; reflexivity).
  - eexists. split; [reflexivity|].
    destruct (truthy w7); [now destruct (js_Number pf w7)|reflexivity].
  - eexists. split; [reflexivity|].
    destruct (truthy w8); [now destruct (js_Number pf w8)|reflexivity].
Qed.

Lemma map_items_typed pf rows t plans :
  map_items (Coercing.toPricingPlan pf) rows t = (Normal plans, t) ->
  Forall typed_plan plans.
Proof.
  revert plans. induction rows as [|row rows IH]; intros plans.
  - cbn. intros [= <-]. constructor.
  - cbn [map_items]. rewrite bind_run.
    destruct (nullish row) eqn:Hn.
    + rewrite (toPricingPlan_throws pf row t Hn). discriminate.
    + destruct (toPricingPlan_typed pf row t Hn) as (plan & -> & Hp).
      rewrite bind_run.
      destruct (map_items (Coercing.toPricingPlan pf) rows t)
        as [[plans'|e] t'] eqn:Hrest; [|discriminate].
      cbn. intros [= <- <-]. constructor; [exact Hp|now apply IH].
Qed.

(** The cases of the coercing lister: it returns the empty sequence, or
    the image of the payload's rows under its [map] callback. *)
Lemma coercing_plans_cases pf supabase options (R : list value -> Prop) :
  R [] ->
  (forall rows t plans,
     map_items (Coercing.toPricingPlan pf) rows t = (Normal plans, t) -> R plans) ->
  exists plans,
    result (Coercing.fetchPricingPlans pf supabase options) = Normal (VArr plans) /\
    R plans.
Proof.
  intros Hnil Hmap.
  unfold Coercing.fetchPricingPlans. js_run.
  destruct (postgrest supabase _) as [r|e]; cbn; [|now exists []].
  destruct (get_prop r "data") as [data|e]; cbn; [|now exists []].
  destruct (get_prop r "error") as [error|e]; cbn; [|now exists []].
  destruct (truthy error); cbn; [now exists []|].
  destruct (negb (truthy data) || negb (isArray data))%bool eqn:Hd; cbn;
    [now exists []|].
  destruct (array_payload data Hd) as [rows ->]. cbn. rewrite bind_run.
  destruct (map_items_toPricingPlan pf rows
    [EQuery (Coercing.pricingPlansQuery
               (param_default (of_number (opt_limit options)) (VNum 1000))
               (param_default (of_boolean (opt_is_featured options)) (VBool false)))])
    as [[e He]|(plans & He & _)]; rewrite He; cbn.
  - now exists [].
  - exists plans. split; [reflexivity|]. exact (Hmap _ _ _ He).
Qed.

(** X5. Whatever the backend does, every plan the coercing lister returns
    has a string [id], [name] and [slug], boolean [most_popular] and
    [is_featured], and [price_monthly] and [price_yearly] of type number
    ([NaN] included). *)
Theorem coercing_plans_typed pf supabase options :
  exists plans,
    result (Coercing.fetchPricingPlans pf supabase options) = Normal (VArr plans) /\
    Forall typed_plan plans.
Proof.
  apply (coercing_plans_cases pf supabase options (Forall typed_plan)).
  - constructor.
  - intros rows t plans. apply map_items_typed.
Qed.

Lemma unselected_prices (rs : list (gmap string value)) plans :
  Forall2 populated_from
    (map (fun r => VObj (Backend.project (Backend.columns Coercing.selectQuery) r)) rs)
    plans ->
  Forall (fun plan =>
            get_prop plan "price_monthly" = Normal (VNum 0) /\
            get_prop plan "price_yearly" = Normal (VNum 0)) plans.
Proof.
  revert plans. induction rs as [|r rs IH]; intros plans H; cbn [map] in H.
  - apply Forall2_nil_inv_l in H as ->. constructor.
  - apply Forall2_cons_inv_l in H as (plan & plans' & Hp & Hps & ->).
    constructor; [|now apply IH].
    assert (Hrow : forall k, k = "price_monthly" \/ k = "price_yearly" ->
              get_prop (VObj (Backend.project
                                (Backend.columns Coercing.selectQuery) r)) k
              = Normal VUndef).
    { intros k Hk. rewrite coercing_columns. unfold Backend.project.
      change (get_prop (obj (map (fun k0 => (k0, Backend.column r k0))
                ["id"; "name"; "slug"; "description"; "cta"; "most_popular";
                 "is_featured"; "pricing_features"])) k = Normal VUndef).
      rewrite get_prop_obj. now destruct Hk as [-> | ->]. }
    split.
    + destruct (Hp "price_monthly" (VNum 0)) as (v & Hv & _ & Hd);
        [cbn; tauto|].
      rewrite Hv, (Hd VUndef); [reflexivity|apply Hrow; now left|reflexivity].
    + destruct (Hp "price_yearly" (VNum 0)) as (v & Hv & _ & Hd);
        [cbn; tauto|].
      rewrite Hv, (Hd VUndef); [reflexivity|apply Hrow; now right|reflexivity].
Qed.

Lemma q_select_pricing_coercing limit is_featured :
  q_select (Coercing.pricingPlansQuery limit is_featured) = Coercing.selectQuery.
Proof. unfold Coercing.pricingPlansQuery. now destruct (String.eqb _ _). Qed.

(** X8. The select list of the coercing lister names neither
    [price_monthly] nor [price_yearly].  Over a backend that answers with
    the selected columns only, every plan it returns therefore carries the
    default price 0, monthly and yearly, whatever the table holds. *)
Theorem coercing_prices_not_selected pf supabase db options :
  exists plans,
    result (Coercing.fetchPricingPlans pf (Backend.serve db supabase) options)
      = Normal (VArr plans) /\
    Forall (fun plan =>
              get_prop plan "price_monthly" = Normal (VNum 0) /\
              get_prop plan "price_yearly" = Normal (VNum 0)) plans.
Proof.
  destruct (coercing_plans_success pf (Backend.serve db supabase) options _ VNull
              (served_rows db supabase _ (q_single_pricing_coercing _ _))
              eq_refl (answer_defined db _))
    as (plans & Hres & Hps).
  exists plans. split; [exact Hres|].
  unfold Backend.answer in Hps. rewrite q_select_pricing_coercing in Hps.
  exact (unselected_prices _ _ Hps).
Qed.

(** ** The profile fetchers, case by case *)

(** X9. When [auth.getUser()] resolves without an error and without a
    user, both variants return [null] after that one call: no query is
    sent and the shared error reporter is not invoked.  The coercing
    variant leaves a console warning, the pass-through variant nothing. *)
Theorem no_session pf supabase data user userError :
  responds (auth_getUser supabase) data userError ->
  get_prop data "user" = Normal user ->
  truthy userError = false ->
  truthy user = false ->
  run (Coercing.fetchUserProfile pf supabase) =
    (Normal VNull,
     [EGetUser; EConsole "warn" [VStr "No authenticated user found"]]) /\
  run (PassThrough.fetchUserProfile supabase) = (Normal VNull, [EGetUser]).
Proof.
  intros (r & Hr & Hdata & Herr) Hu He Hf. split.
  - unfold Coercing.fetchUserProfile. js_run. js_known. reflexivity.
  - unfold PassThrough.fetchUserProfile. js_run. js_known. reflexivity.
Qed.

Lemma no_session_witness :
  run (Coercing.fetchUserProfile Sample.browser Sample.anonymous) =
    (Normal VNull,
     [EGetUser; EConsole "warn" [VStr "No authenticated user found"]]) /\
  run (PassThrough.fetchUserProfile Sample.anonymous) = (Normal VNull, [EGetUser]).
Proof.
  apply (no_session _ _ (obj [("user", VNull)]) VNull VNull).
  - eexists. repeat split; reflexivity.
  - reflexivity.
  - reflexivity.
  - reflexivity.
Defined.

(** X10. For an authenticated user, when the profile query resolves with an
    error or without a row, both variants return [null] and the shared
    error reporter is not invoked: the coercing variant writes the error
    to the console, and so does the pass-through variant when there is
    one. *)
Theorem profile_missing_not_reported pf supabase user data error :
  authenticated supabase user ->
  answers supabase "profiles" data error ->
  truthy error = true \/ truthy data = false ->
  (result (Coercing.fetchUserProfile pf supabase) = Normal VNull /\
   reports (trace (Coercing.fetchUserProfile pf supabase)) = 0%nat /\
   In (EConsole "error" [VStr "Profile fetch error:"; error])
      (trace (Coercing.fetchUserProfile pf supabase))) /\
  (result (PassThrough.fetchUserProfile supabase) = Normal VNull /\
   reports (trace (PassThrough.fetchUserProfile supabase)) = 0%nat /\
   (truthy error = true ->
    In (EConsole "error" [error]) (trace (PassThrough.fetchUserProfile supabase)))).
Proof.
  intros (udata & uerr & (r & Hr & Hudata & Huerr) & Huser & Hne & Hu) Hq Hcase.
  destruct (get_prop_defined user "id" (truthy_not_nullish _ Hu)) as [uid Huid].
  split.
  - destruct (Hq (Coercing.profileQuery uid) eq_refl) as (r2 & Hr2 & Hdata & Herr).
    assert (Hc : (truthy error || negb (truthy data))%bool = true)
      by (destruct Hcase as [-> | ->]; [reflexivity|apply orb_true_r]).
    unfold Coercing.fetchUserProfile. js_run. js_known. rewrite Hc. cbn.
    repeat split. right. right. left. reflexivity.
  - destruct (Hq (PassThrough.profileQuery uid) eq_refl) as (r2 & Hr2 & Hdata & Herr).
    unfold PassThrough.fetchUserProfile. js_run. js_known.
    destruct (truthy error) eqn:He; cbn.
    + repeat split. intros _. right. right. left. reflexivity.
    + destruct Hcase as [Hcase| ->]; [discriminate Hcase|]. cbn.
      repeat split. intros Habs. discriminate Habs.
Qed.

Lemma profile_missing_not_reported_witness :
  (result (Coercing.fetchUserProfile Sample.browser
             (Sample.answering VNull Sample.query_error)) = Normal VNull /\
   reports (trace (Coercing.fetchUserProfile Sample.browser
             (Sample.answering VNull Sample.query_error))) = 0%nat /\
   In (EConsole "error" [VStr "Profile fetch error:"; Sample.query_error])
      (trace (Coercing.fetchUserProfile Sample.browser
             (Sample.answering VNull Sample.query_error)))) /\
  (result (PassThrough.fetchUserProfile
             (Sample.answering VNull Sample.query_error)) = Normal VNull /\
   reports (trace (PassThrough.fetchUserProfile
             (Sample.answering VNull Sample.query_error))) = 0%nat /\
   (truthy Sample.query_error = true ->
    In (EConsole "error" [Sample.query_error])
       (trace (PassThrough.fetchUserProfile
                 (Sample.answering VNull Sample.query_error))))).
Proof.
  apply (profile_missing_not_reported _ _ Sample.user VNull Sample.query_error).
  - do 2 eexists. split; [eexists; repeat split; reflexivity|].
    repeat split; reflexivity.
  - intros q _. eexists. repeat split; reflexivity.
  - left. reflexivity.
Defined.

(** X11. In the coercing variant, when [auth.getUser()] fails to hand an
    object on (it throws, or resolves with [null] or [undefined]),
    [fetchUserProfile] returns [null], invokes the shared error reporter
    exactly once and sends no query. *)
Theorem coercing_getUser_failed pf supabase :
  failed (auth_getUser supabase) = true ->
  result (Coercing.fetchUserProfile pf supabase) = Normal VNull /\
  reports (trace (Coercing.fetchUserProfile pf supabase)) = 1%nat /\
  queries (trace (Coercing.fetchUserProfile pf supabase)) = [].
Proof.
  intros Hf. unfold Coercing.fetchUserProfile. js_run.
  destruct (failed_cases _ Hf) as [[e ->]|(r & -> & Hn)]; cbn.
  - repeat split.
  - rewrite (get_prop_nullish r "data" Hn). cbn. repeat split.
Qed.

Lemma coercing_getUser_failed_witness :
  result (Coercing.fetchUserProfile Sample.browser Sample.offline) = Normal VNull /\
  reports (trace (Coercing.fetchUserProfile Sample.browser Sample.offline)) = 1%nat /\
  queries (trace (Coercing.fetchUserProfile Sample.browser Sample.offline)) = [].
Proof.
  apply (coercing_getUser_failed Sample.browser Sample.offline). reflexivity.
Defined.

(** X12. For an authenticated user, when the profile query throws, the
    coercing variant returns [null] and reports the thrown value once;
    the pass-through variant lets it reach the caller and reports
    nothing. *)
Theorem profile_query_throws pf supabase user e :
  authenticated supabase user ->
  (forall q, q_table q = "profiles" -> postgrest supabase q = Throw e) ->
  (result (Coercing.fetchUserProfile pf supabase) = Normal VNull /\
   List.filter is_report (trace (Coercing.fetchUserProfile pf supabase))
     = [EHandlerApiError e]) /\
  (result (PassThrough.fetchUserProfile supabase) = Throw e /\
   reports (trace (PassThrough.fetchUserProfile supabase)) = 0%nat).
Proof.
  intros (udata & uerr & (r & Hr & Hudata & Huerr) & Huser & Hne & Hu) Hq.
  destruct (get_prop_defined user "id" (truthy_not_nullish _ Hu)) as [uid Huid].
  split.
  - pose proof (Hq (Coercing.profileQuery uid) eq_refl) as Hr2.
    unfold Coercing.fetchUserProfile. js_run. js_known. split; reflexivity.
  - pose proof (Hq (PassThrough.profileQuery uid) eq_refl) as Hr2.
    unfold PassThrough.fetchUserProfile. js_run. js_known. split; reflexivity.
Qed.

Lemma profile_query_throws_witness :
  (result (Coercing.fetchUserProfile Sample.browser Sample.database_down) = Normal VNull /\
   List.filter is_report (trace (Coercing.fetchUserProfile Sample.browser
                                   Sample.database_down))
     = [EHandlerApiError Sample.network_error]) /\
  (result (PassThrough.fetchUserProfile Sample.database_down)
     = Throw Sample.network_error /\
   reports (trace (PassThrough.fetchUserProfile Sample.database_down)) = 0%nat).
Proof.
  apply (profile_query_throws _ Sample.database_down Sample.user).
  - do 2 eexists. split; [eexists; repeat split; reflexivity|].
    repeat split; reflexivity.
  - intros q _. reflexivity.
Defined.

Lemma coercing_toProfilePlan_throws pf row t :
  nullish row = true ->
  Coercing.toProfilePlan pf row t =
    (Throw (TypeError ("Cannot read properties of " +:+ typeof row)), t).
Proof.
  intros Hn. unfold Coercing.toProfilePlan. js_run.
  now rewrite (get_prop_nullish row "id" Hn).
Qed.

Lemma coercing_toProfilePlan_returns pf row t :
  nullish row = false ->
  exists plan, Coercing.toProfilePlan pf row t = (Normal plan, t).
Proof.
  intros Hn.
  js_fields row Hn ["id"; "name"; "slug"; "description"; "price_monthly";
                    "price_yearly"].
  unfold Coercing.toProfilePlan. js_run. js_known. eauto.
Qed.

Lemma passthrough_toProfilePlan_throws row t :
  nullish row = true ->
  PassThrough.toProfilePlan row t =
    (Throw (TypeError ("Cannot read properties of " +:+ typeof row)), t).
Proof.
  intros Hn. unfold PassThrough.toProfilePlan. js_run.
  now rewrite (get_prop_nullish row "id" Hn).
Qed.

Lemma passthrough_toProfilePlan_trims row t :
  nullish row = false ->
  exists plan, PassThrough.toProfilePlan row t = (Normal plan, t) /\ trimmed row plan.
Proof.
  intros Hn.
  js_fields row Hn ["id"; "name"; "slug"; "price_monthly"; "price_yearly"].
  unfold PassThrough.toProfilePlan. js_run. js_known.
  eexists. split; [reflexivity|].
  intros k. rewrite get_prop_obj. cbn [field].
  repeat match goal with
         | |- context [String.eqb ?a k] =>
             destruct (String.eqb_spec a k) as [<-|?];
             [rewrite bool_decide_eq_true_2 by (cbn; tauto); congruence|]
         end.
  rewrite bool_decide_eq_false_2; [reflexivity|].
  cbn. intuition congruence.
Qed.

Lemma passthrough_toProfilePlan_returns row t :
  nullish row = false ->
  exists plan, PassThrough.toProfilePlan row t = (Normal plan, t).
Proof.
  intros Hn. destruct (passthrough_toProfilePlan_trims row t Hn) as (plan & H & _).
  eauto.
Qed.

(** X13. For an authenticated user whose profile row joins a collection of
    plans, one [null] or [undefined] item in the collection makes the
    [map] callback throw: the coercing variant returns [null] and
    reports once, the pass-through variant throws the [TypeError] at its
    caller and reports nothing. *)
Theorem relation_null_item pf supabase user data rows :
  authenticated supabase user ->
  profile_row supabase data ->
  get_prop data "pricing_plans" = Normal (VArr rows) ->
  Exists (fun row => nullish row = true) rows ->
  (result (Coercing.fetchUserProfile pf supabase) = Normal VNull /\
   reports (trace (Coercing.fetchUserProfile pf supabase)) = 1%nat) /\
  (exists row,
     nullish row = true /\
     result (PassThrough.fetchUserProfile supabase) =
       Throw (TypeError ("Cannot read properties of " +:+ typeof row))) /\
  reports (trace (PassThrough.fetchUserProfile supabase)) = 0%nat.
Proof.
  intros (udata & uerr & (r & Hr & Hudata & Huerr) & Huser & Hne & Hu)
         (error & Hq & He & Hd) Hp Hex.
  destruct (get_prop_defined user "id" (truthy_not_nullish _ Hu)) as [uid Huid].
  pose proof (truthy_not_nullish _ Hd) as Hdn.
  js_fields data Hdn ["id"; "name"; "first_name"; "last_name"; "email";
                      "picture"; "is_subscribed"; "plan_id"; "stripe_customer_id"].
  split; [|].
  - destruct (Hq (Coercing.profileQuery uid) eq_refl) as (r2 & Hr2 & Hdata & Herr).
    unfold Coercing.fetchUserProfile. js_run. js_known. rewrite bind_run.
    match goal with
    | |- context [map_items _ rows ?t] =>
        destruct (map_items_null (Coercing.toProfilePlan pf)
                    (coercing_toProfilePlan_throws pf)
                    (coercing_toProfilePlan_returns pf) rows t Hex)
          as (row & Hn & ->)
    end.
    cbn. split; reflexivity.
  - destruct (Hq (PassThrough.profileQuery uid) eq_refl) as (r2 & Hr2 & Hdata & Herr).
    unfold PassThrough.fetchUserProfile. js_run. js_known. rewrite bind_run.
    match goal with
    | |- context [map_items _ rows ?t] =>
        destruct (map_items_null PassThrough.toProfilePlan
                    passthrough_toProfilePlan_throws
                    passthrough_toProfilePlan_returns rows t Hex)
          as (row & Hn & ->)
    end.
    cbn. split; [|reflexivity]. exists row. split; [exact Hn|reflexivity].
Qed.

Lemma relation_null_item_witness :
  (result (Coercing.fetchUserProfile Sample.browser
             (Sample.answering Sample.profile_with_gap VNull)) = Normal VNull /\
   reports (trace (Coercing.fetchUserProfile Sample.browser
             (Sample.answering Sample.profile_with_gap VNull))) = 1%nat) /\
  (exists row,
     nullish row = true /\
     result (PassThrough.fetchUserProfile
               (Sample.answering Sample.profile_with_gap VNull)) =
       Throw (TypeError ("Cannot read properties of " +:+ typeof row))) /\
  reports (trace (PassThrough.fetchUserProfile
                    (Sample.answering Sample.profile_with_gap VNull))) = 0%nat.
Proof.
  apply (relation_null_item _ _ Sample.user Sample.profile_with_gap
           [Sample.starter_plan; VNull]).
  - do 2 eexists. split; [eexists; repeat split; reflexivity|].
    repeat split; reflexivity.
  - exists VNull. split; [|split; reflexivity].
    intros q _. eexists. repeat split; reflexivity.
  - reflexivity.
  - right. left. reflexivity.
Defined.

Lemma normalised_relation relation :
  (if isArray relation then relation else VArr [relation])
  = VArr (relation_items relation).
Proof. now destruct relation. Qed.

(** X15. For an authenticated user with a profile row whose joined
    relation holds no [null] item, the coercing variant returns a profile
    with one plan per item of the relation (one for a single object), in
    which [id], [name], [email] and [stripe_customer_id] are strings,
    [is_subscribed] is a boolean, and [first_name], [last_name],
    [picture] and [plan_id] are each a string or [undefined], never
    [null]. *)
Theorem coercing_profile_shape pf supabase user data relation :
  authenticated supabase user ->
  profile_row supabase data ->
  get_prop data "pricing_plans" = Normal relation ->
  Forall (fun item => nullish item = false) (relation_items relation) ->
  exists profile plans,
    result (Coercing.fetchUserProfile pf supabase) = Normal profile /\
    typed_profile profile /\
    get_prop profile "pricing_plans" = Normal (VArr plans) /\
    length plans = length (relation_items relation).
Proof.
  intros (udata & uerr & (r & Hr & Hudata & Huerr) & Huser & Hne & Hu)
         (error & Hq & He & Hd) Hp Hitems.
  destruct (get_prop_defined user "id" (truthy_not_nullish _ Hu)) as [uid Huid].
  destruct (Hq (Coercing.profileQuery uid) eq_refl) as (r2 & Hr2 & Hdata & Herr).
  pose proof (truthy_not_nullish _ Hd) as Hdn.
  js_fields data Hdn ["id"; "name"; "first_name"; "last_name"; "email";
                      "picture"; "is_subscribed"; "plan_id"; "stripe_customer_id"].
  unfold Coercing.fetchUserProfile. js_run. js_known.
  rewrite normalised_relation. cbn [array_map]. rewrite bind_run.
  match goal with
  | |- context [map_items _ _ ?t] =>
      destruct (map_items_rows (Coercing.toProfilePlan pf)
                  (coercing_toProfilePlan_returns pf) _ t Hitems)
        as (plans & -> & Hlen)
  end.
  cbn. do 2 eexists. split; [reflexivity|].
  split; [|split; [now rewrite get_prop_obj|exact Hlen]].
  unfold typed_profile, Coercing.optional_string. repeat split.
  - intros k Hin. cbn in Hin. rewrite get_prop_obj.
    repeat (destruct Hin as [<-|Hin]); [..|contradiction]; cbn; eauto.
  - intros k Hin. cbn in Hin. rewrite get_prop_obj.
    repeat (destruct Hin as [<-|Hin]); [..|contradiction]; cbn;
      match goal with
      | |- context [truthy ?w] => destruct (truthy w); eauto
      end.
  - rewrite get_prop_obj. cbn. eauto.
Qed.

Lemma coercing_profile_shape_witness :
  exists profile plans,
    result (Coercing.fetchUserProfile Sample.browser
              (Sample.answering Sample.profile_with_plan VNull)) = Normal profile /\
    typed_profile profile /\
    get_prop profile "pricing_plans" = Normal (VArr plans) /\
    length plans = length (relation_items Sample.starter_plan).
Proof.
  apply (coercing_profile_shape _ _ Sample.user Sample.profile_with_plan
           Sample.starter_plan).
  - do 2 eexists. split; [eexists; repeat split; reflexivity|].
    repeat split; reflexivity.
  - exists VNull. split; [|split; reflexivity].
    intros q _. eexists. repeat split; reflexivity.
  - reflexivity.
  - repeat constructor.
Defined.

Lemma map_items_trims rows t :
  Forall (fun row => nullish row = false) rows ->
  exists plans,
    map_items PassThrough.toProfilePlan rows t = (Normal plans, t) /\
    Forall2 trimmed rows plans.
Proof.
  induction 1 as [|row rows Hn _ IH].
  - exists []. split; [reflexivity|constructor].
  - cbn [map_items]. rewrite bind_run.
    destruct (passthrough_toProfilePlan_trims row t Hn) as (plan & -> & Hp).
    rewrite bind_run. destruct IH as (plans & -> & Hps).
    exists (plan :: plans). split; [reflexivity|now constructor].
Qed.

(** X16. For an authenticated user with a profile row, the pass-through
    variant hands the nine scalar fields of the row on as they are
    ([null] stays [null], a missing field stays [undefined]); when the
    joined relation is an array without [null] items, each item becomes a
    plan holding its five fields [id], [name], [slug], [price_monthly]
    and [price_yearly] as they are and nothing else, and a relation that
    is not an array becomes the empty collection. *)
Theorem passthrough_profile_raw supabase user data relation :
  authenticated supabase user ->
  profile_row supabase data ->
  get_prop data "pricing_plans" = Normal relation ->
  Forall (fun item => nullish item = false) (array_items relation) ->
  exists profile plans,
    result (PassThrough.fetchUserProfile supabase) = Normal profile /\
    (forall k,
       In k ["id"; "name"; "first_name"; "last_name"; "email"; "picture";
             "is_subscribed"; "plan_id"; "stripe_customer_id"] ->
       get_prop profile k = get_prop data k) /\
    get_prop profile "pricing_plans" = Normal (VArr plans) /\
    Forall2 trimmed (array_items relation) plans.
Proof.
  intros (udata & uerr & (r & Hr & Hudata & Huerr) & Huser & Hne & Hu)
         (error & Hq & He & Hd) Hp Hitems.
  destruct (get_prop_defined user "id" (truthy_not_nullish _ Hu)) as [uid Huid].
  destruct (Hq (PassThrough.profileQuery uid) eq_refl) as (r2 & Hr2 & Hdata & Herr).
  pose proof (truthy_not_nullish _ Hd) as Hdn.
  js_fields data Hdn ["id"; "name"; "first_name"; "last_name"; "email";
                      "picture"; "is_subscribed"; "plan_id"; "stripe_customer_id"].
  assert (Hplans : forall t, exists plans,
            (if isArray relation
             then array_map PassThrough.toProfilePlan relation
             else mret (VArr [])) t = (Normal (VArr plans), t) /\
            Forall2 trimmed (array_items relation) plans).
  { intros t. destruct relation; try (exists []; split; [reflexivity|constructor]).
    cbn [isArray array_map array_items] in *. rewrite bind_run.
    destruct (map_items_trims items t Hitems) as (plans & -> & Hps).
    exists plans. split; [reflexivity|exact Hps]. }
  unfold PassThrough.fetchUserProfile. js_run. js_known.
  match goal with
  | |- context [(if isArray relation then _ else _) ?t] =>
      destruct (Hplans t) as (plans & Hrun & Hps)
  end.
  unfold mret, M_ret in Hrun. rewrite Hrun. cbn.
  do 2 eexists. split; [reflexivity|].
  split; [|split; [now rewrite get_prop_obj|exact Hps]].
  intros k Hin. cbn in Hin. rewrite get_prop_obj.
  repeat (destruct Hin as [<-|Hin]); [..|contradiction]; cbn; congruence.
Qed.

Lemma passthrough_profile_raw_witness :
  exists profile plans,
    result (PassThrough.fetchUserProfile
              (Sample.answering Sample.profile_with_plans VNull)) = Normal profile /\
    (forall k,
       In k ["id"; "name"; "first_name"; "last_name"; "email"; "picture";
             "is_subscribed"; "plan_id"; "stripe_customer_id"] ->
       get_prop profile k = get_prop Sample.profile_with_plans k) /\
    get_prop profile "pricing_plans" = Normal (VArr plans) /\
    Forall2 trimmed (array_items (VArr [Sample.starter_plan])) plans.
Proof.
  apply (passthrough_profile_raw _ Sample.user Sample.profile_with_plans
           (VArr [Sample.starter_plan])).
  - do 2 eexists. split; [eexists; repeat split; reflexivity|].
    repeat split; reflexivity.
  - exists VNull. split; [|split; reflexivity].
    intros q _. eexists. repeat split; reflexivity.
  - reflexivity.
  - repeat constructor.
Defined.

Lemma try_catch_bind_normal {A B} (m : M A) (k : A -> M B) h t a t1 :
  m t = (Normal a, t1) ->
  try_catch (m ≫= k) h t = try_catch (k a) h t1.
Proof. intros H. unfold try_catch. now rewrite bind_run, H. Qed.

Lemma bind_normal {A B} (m : M A) (k : A -> M B) t a t1 :
  m t = (Normal a, t1) -> (m ≫= k) t = k a t1.
Proof. intros H. now rewrite bind_run, H. Qed.

Lemma queries_app t1 t2 : queries (t1 ++ t2)%list = (queries t1 ++ queries t2)%list.
Proof. unfold queries. apply omap_app. Qed.

Lemma queries_quiet t :
  Forall (fun ev => reads_backend ev = false) t -> queries t = [].
Proof.
  induction 1 as [|ev t Hev _ IH]; [reflexivity|].
  destruct ev; try discriminate Hev; exact IH.
Qed.

(** X14. For an authenticated user, whatever the query client answers,
    each variant sends exactly one query: the single-row query on
    [profiles] whose only filter is [id] equal to the [id] of the user
    [auth.getUser()] resolved with. *)
Theorem profile_query_sent pf supabase user uid :
  authenticated supabase user ->
  get_prop user "id" = Normal uid ->
  queries (trace (Coercing.fetchUserProfile pf supabase)) =
    [Query "profiles" Coercing.profileSelect [("id", uid)] None None true] /\
  queries (trace (PassThrough.fetchUserProfile supabase)) =
    [Query "profiles" PassThrough.profileSelect [("id", uid)] None None true].
Proof.
  intros (udata & uerr & (r & Hr & Hudata & Huerr) & Huser & Hne & Hu) Huid.
  split.
  - unfold trace, run, Coercing.fetchUserProfile.
    erewrite try_catch_bind_normal
      by (unfold getUser; rewrite await_run, Hr; reflexivity).
    erewrite try_catch_bind_normal by (rewrite prop_run, Hudata; reflexivity).
    erewrite try_catch_bind_normal by (rewrite prop_run, Huser; reflexivity).
    erewrite try_catch_bind_normal by (rewrite prop_run, Huerr; reflexivity).
    rewrite Hne, Hu. cbv beta iota. cbn [orb negb]. cbv beta iota.
    erewrite try_catch_bind_normal by (rewrite prop_run, Huid; reflexivity).
    destruct (postgrest supabase (Coercing.profileQuery uid)) as [r2|e] eqn:Hp.
    + erewrite try_catch_bind_normal
        by (unfold send; rewrite await_run, Hp; reflexivity).
      match goal with
      | |- context [try_catch ?b ?h ?t] =>
          assert (Ho : only (fun ev => reads_backend ev = false) (try_catch b h))
            by only_auto;
          destruct (Ho t) as (c & t' & -> & Hquiet)
      end.
      cbn [snd]. rewrite !queries_app, (queries_quiet t' Hquiet). reflexivity.
    + unfold try_catch, send. rewrite bind_run, await_run, Hp. reflexivity.
  - unfold trace, run, PassThrough.fetchUserProfile.
    erewrite bind_normal by (unfold getUser; rewrite await_run, Hr; reflexivity).
    erewrite bind_normal by (rewrite prop_run, Hudata; reflexivity).
    erewrite bind_normal by (rewrite prop_run, Huser; reflexivity).
    erewrite bind_normal by (rewrite prop_run, Huerr; reflexivity).
    rewrite Hne, Hu. cbv beta iota. cbn [negb]. cbv beta iota.
    erewrite bind_normal by (rewrite prop_run, Huid; reflexivity).
    destruct (postgrest supabase (PassThrough.profileQuery uid)) as [r2|e] eqn:Hp.
    + erewrite bind_normal by (unfold send; rewrite await_run, Hp; reflexivity).
      match goal with
      | |- context [snd (?b ?t)] =>
          assert (Ho : only (fun ev => reads_backend ev = false) b)
            by only_auto;
          destruct (Ho t) as (c & t' & -> & Hquiet)
      end.
      cbn [snd]. rewrite !queries_app, (queries_quiet t' Hquiet). reflexivity.
    + unfold send. rewrite bind_run, await_run, Hp. reflexivity.
Qed.

Lemma profile_query_sent_witness :
  queries (trace (Coercing.fetchUserProfile Sample.browser
                    (Sample.answering Sample.profile_with_plan VNull))) =
    [Query "profiles" Coercing.profileSelect [("id", VStr "u1")] None None true] /\
  queries (trace (PassThrough.fetchUserProfile
                    (Sample.answering Sample.profile_with_plan VNull))) =
    [Query "profiles" PassThrough.profileSelect [("id", VStr "u1")] None None true].
Proof.
  apply (profile_query_sent _ _ Sample.user (VStr "u1")).
  - do 2 eexists. split; [eexists; repeat split; reflexivity|].
    repeat split; reflexivity.
  - reflexivity.
Defined.

(** ** Login and logout, call by call *)

Lemma coercing_outcome_trace (call : M value) (c : completion value) ev :
  call = await ev c ->
  trace (try_catch
           (response ← call;
            error ← prop response "error";
            mret (obj [("error", error)]))
           (fun error => handlerApiError error;; mret (obj [("error", error)])))
  = ev :: (if failed c then [EHandlerApiError (outcome_error c)] else []).
Proof.
  intros ->. js_run. unfold outcome_error, failed.
  destruct c as [response|e]; cbn; [|reflexivity].
  destruct response; reflexivity.
Qed.

(** X18. In the coercing variant each of [loginWithGithub],
    [loginWithLinkedIn] and [logout] makes exactly one call on the auth
    client (providers [github] and [linkedin], redirecting to
    [window.location.origin]) and invokes the shared error reporter
    exactly when that call throws or resolves with [null] or
    [undefined]: an error the call resolves with is returned in the
    outcome and not reported. *)
Theorem coercing_auth_calls pf supabase :
  trace (Coercing.loginWithGithub pf supabase) =
    ESignInWithOAuth (credentials "github" (window_location_origin pf))
    :: (if failed (auth_signInWithOAuth supabase
                     (credentials "github" (window_location_origin pf)))
        then [EHandlerApiError
                (outcome_error (auth_signInWithOAuth supabase
                   (credentials "github" (window_location_origin pf))))]
        else []) /\
  trace (Coercing.loginWithLinkedIn pf supabase) =
    ESignInWithOAuth (credentials "linkedin" (window_location_origin pf))
    :: (if failed (auth_signInWithOAuth supabase
                     (credentials "linkedin" (window_location_origin pf)))
        then [EHandlerApiError
                (outcome_error (auth_signInWithOAuth supabase
                   (credentials "linkedin" (window_location_origin pf))))]
        else []) /\
  trace (Coercing.logout supabase) =
    ESignOut
    :: (if failed (auth_signOut supabase)
        then [EHandlerApiError (outcome_error (auth_signOut supabase))]
        else []).
Proof.
  repeat split; exact (coercing_outcome_trace _ _ _ eq_refl).
Qed.

(** X19. In the pass-through variant [loginWithGithub] and
    [loginWithLinkedIn] make exactly one call on the auth client
    (providers [github] and [linkedin_oidc], redirecting to the relative
    [auth/callback] and to [NEXT_SITE_URL] followed by [auth/callback])
    and invoke the shared error reporter only when that call throws: an
    error the call resolves with is neither returned nor reported.
    [logout] returns the outcome when [signOut] hands an object on, and
    otherwise reports once and returns [undefined]. *)
Theorem passthrough_auth_calls pf supabase :
  trace (PassThrough.loginWithGithub supabase) =
    ESignInWithOAuth (credentials "github" (VStr "auth/callback"))
    :: match auth_signInWithOAuth supabase
               (credentials "github" (VStr "auth/callback")) with
       | Throw e => [EHandlerApiError e]
       | Normal _ => []
       end /\
  trace (PassThrough.loginWithLinkedIn pf supabase) =
    ESignInWithOAuth
      (credentials "linkedin_oidc"
         (VStr (js_String pf (NEXT_SITE_URL pf) +:+ "auth/callback")))
    :: match auth_signInWithOAuth supabase
               (credentials "linkedin_oidc"
                  (VStr (js_String pf (NEXT_SITE_URL pf) +:+ "auth/callback"))) with
       | Throw e => [EHandlerApiError e]
       | Normal _ => []
       end /\
  run (PassThrough.logout supabase) =
    (if failed (auth_signOut supabase)
     then (Normal VUndef,
           [ESignOut; EHandlerApiError (outcome_error (auth_signOut supabase))])
     else (Normal (obj [("error", outcome_error (auth_signOut supabase))]),
           [ESignOut])).
Proof.
  split; [|split].
  - unfold PassThrough.loginWithGithub. js_run.
    now destruct (auth_signInWithOAuth supabase _).
  - unfold PassThrough.loginWithLinkedIn. js_run.
    now destruct (auth_signInWithOAuth supabase _).
  - unfold PassThrough.logout. js_run. unfold outcome_error, failed.
    destruct (auth_signOut supabase) as [response|e]; cbn; [|reflexivity].
    destruct response; reflexivity.
Qed.

(** X20. With [NEXT_SITE_URL] not set, on a platform whose [String]
    turns [undefined] into the text [undefined], [loginWithLinkedIn] of
    the pass-through variant does not fail: it starts the sign-in with
    the redirect target [undefinedauth/callback] and resolves with
    [undefined] when the call resolves. *)
Theorem linkedin_redirect_without_site_url pf supabase response :
  NEXT_SITE_URL pf = VUndef ->
  js_String pf VUndef = "undefined" ->
  auth_signInWithOAuth supabase
    (credentials "linkedin_oidc" (VStr "undefinedauth/callback")) = Normal response ->
  run (PassThrough.loginWithLinkedIn pf supabase) =
    (Normal VUndef,
     [ESignInWithOAuth (credentials "linkedin_oidc" (VStr "undefinedauth/callback"))]).
Proof.
  intros Hurl Hstr Hcall.
  unfold PassThrough.loginWithLinkedIn, signInWithOAuth. rewrite Hurl, Hstr.
  change ("undefined" +:+ "auth/callback") with "undefinedauth/callback".
  set (creds := credentials "linkedin_oidc" (VStr "undefinedauth/callback")) in *.
  js_run. now rewrite Hcall.
Qed.

Lemma linkedin_redirect_without_site_url_witness :
  run (PassThrough.loginWithLinkedIn Sample.unconfigured
         (Sample.answering VNull VNull)) =
    (Normal VUndef,
     [ESignInWithOAuth (credentials "linkedin_oidc" (VStr "undefinedauth/callback"))]).
Proof.
  apply (linkedin_redirect_without_site_url Sample.unconfigured
           (Sample.answering VNull VNull)
           (Sample.response (obj [("provider", VStr "github")]) VNull));
    reflexivity.
Defined.

(** ** Falsy fields *)

Lemma toPricingPlan_defaults pf row t :
  nullish row = false ->
  exists plan,
    Coercing.toPricingPlan pf row t = (Normal plan, t) /\ defaulted row plan.
Proof.
  intros Hn.
  js_fields row Hn ["id"; "name"; "slug"; "description"; "cta"; "most_popular";
                    "is_featured"; "pricing_features"; "price_monthly";
                    "price_yearly"].
  unfold Coercing.toPricingPlan. js_run. js_known.
  eexists. split; [reflexivity|].
  intros k d w' Hin Hw'. cbn in Hin. rewrite get_prop_obj.
  repeat (destruct Hin as [[= <- <-]|Hin]); [..|contradiction]; cbn [field String.eqb Ascii.eqb Bool.eqb];
    match goal with
    | H : get_prop row ?k = Normal ?w |- _ =>
        lazymatch type of Hw' with
        | get_prop row k = _ => rewrite H in Hw'; injection Hw' as <-
        end
    end;
    (split;
     [ intros Hf; unfold or_else; try rewrite Hf; try reflexivity;
       match goal with
       | |- context [match ?w with _ => _ end] =>
           destruct w; cbn in Hf |- *; congruence
       end
     | intros Ht Hk; cbn in Hk;
       first [ unfold or_else; rewrite Ht; reflexivity
             | exfalso; intuition discriminate ] ]).
Qed.

Lemma map_items_defaults pf rows t :
  Forall (fun row => nullish row = false) rows ->
  exists plans,
    map_items (Coercing.toPricingPlan pf) rows t = (Normal plans, t) /\
    Forall2 defaulted rows plans.
Proof.
  induction 1 as [|row rows Hn _ IH].
  - exists []. split; [reflexivity|constructor].
  - cbn [map_items]. rewrite bind_run.
    destruct (toPricingPlan_defaults pf row t Hn) as (plan & -> & Hp).
    rewrite bind_run. destruct IH as (plans & -> & Hps).
    exists (plan :: plans). split; [reflexivity|now constructor].
Qed.

(** X6. In the coercing variant the defaults replace every falsy value,
    not only an absent one: a row whose [id] is 0 or the empty string
    comes back with the [id] [Unknown], an empty [description] with the
    default text, a price 0 or [NaN] with 0.  A truthy [description],
    [cta] or [pricing_features] is handed on unchanged, whatever its
    type. *)
Theorem coercing_falsy_fields_defaulted pf supabase options rows error :
  answers supabase "pricing_plans" (VArr rows) error ->
  truthy error = false ->
  Forall (fun row => nullish row = false) rows ->
  exists plans,
    result (Coercing.fetchPricingPlans pf supabase options) = Normal (VArr plans) /\
    Forall2 defaulted rows plans.
Proof.
  intros Hq He Hrows.
  destruct (Hq _ (q_table_pricing_coercing
    (param_default (of_number (opt_limit options)) (VNum 1000))
    (param_default (of_boolean (opt_is_featured options)) (VBool false))))
    as (r & Hr & Hdata & Herr).
  unfold Coercing.fetchPricingPlans. js_run. js_known. rewrite bind_run.
  match goal with
  | |- context [map_items _ rows ?t] =>
      destruct (map_items_defaults pf rows t Hrows) as (plans & -> & Hps)
  end.
  exists plans. split; [reflexivity|exact Hps].
Qed.

Lemma coercing_falsy_fields_defaulted_witness :
  exists plans,
    result (Coercing.fetchPricingPlans Sample.browser
              (Sample.answering (VArr [Sample.zero_plan]) VNull)
              Sample.no_options) = Normal (VArr plans) /\
    Forall2 defaulted [Sample.zero_plan] plans.
Proof.
  apply (coercing_falsy_fields_defaulted _ _ _ [Sample.zero_plan] VNull).
  - intros q _. eexists. repeat split; reflexivity.
  - reflexivity.
  - repeat constructor.
Defined.

(** On the sample platform, a plan whose [id] is 0 and whose description
    is a number. *)
Example zero_plan_sample :
  match result (Coercing.fetchPricingPlans Sample.browser
                  (Sample.answering (VArr [Sample.zero_plan]) VNull)
                  Sample.no_options) with
  | Normal (VArr [plan]) =>
      get_prop plan "id" = Normal (VStr "Unknown") /\
      get_prop plan "description" = Normal (VNum 7) /\
      get_prop plan "price_monthly" = Normal (VNum 0)
  | _ => False
  end.
Proof. vm_compute. repeat split. Qed.
